(** * statiko: the page and post rendering pipeline

    A shallow embedding of [main.go] (the version whose functions return
    errors and exit through [die]) and the properties of its rendering
    pipeline: title and summary extraction, the date footer, the post
    listing, path derivation and error propagation. *)

From Stdlib Require Import ZArith Ascii String List Bool Lia DecimalString.
From stdpp Require Import base strings list.

Set Warnings "-register-all".
Local Open Scope Z_scope.

(** ** Strings

    Go strings and byte slices are sequences of bytes: [string]. *)

Definition nl : string := String (ascii_of_nat 10) EmptyString.

(** [strconv.Itoa] / the [%d] verb on an [int]. *)
Definition itoa (n : Z) : string := NilZero.string_of_int (Z.to_int n).

(** ** The document tree of [gomarkdown/markdown/ast]

    Every node type of the library embeds either [ast.Container] (an ordered
    child sequence) or [ast.Leaf] (literal bytes, no children). *)

Inductive ContainerKind : Type :=
| Document
| BlockQuote
| List
| ListItem
| Paragraph
| Heading (Level : Z)
| Emph
| Strong
| Del
| Link (Destination : string)
| Image (Destination : string)
| Table
| OtherContainer (name : string).

Inductive LeafKind : Type :=
| Text
| HorizontalRule
| Code
| CodeBlock
| HTMLBlock
| HTMLSpan
| Softbreak
| Hardbreak
| OtherLeaf (name : string).

Inductive Node : Type :=
| Leaf (kind : LeafKind) (Literal : string)
| Container (kind : ContainerKind) (Children : list Node).

(** [node.GetChildren()]: a leaf has none. *)
Definition GetChildren (node : Node) : list Node :=
  match node with
  | Leaf _ _ => []
  | Container _ cs => cs
  end.

(** [child.AsLeaf()]: the literal of a leaf, [None] (nil) for a container. *)
Definition AsLeaf (node : Node) : option string :=
  match node with
  | Leaf _ lit => Some lit
  | Container _ _ => None
  end.

Definition isContainer (node : Node) : bool :=
  match node with
  | Leaf _ _ => false
  | Container _ _ => true
  end.

(** [childLiterals] concatenates the literals under a given node into a
    single string. *)
Fixpoint childLiterals (node : Node) : string :=
  match node with
  | Leaf _ _ => EmptyString
  | Container _ cs =>
      fold_left
        (fun lit child =>
           match child with
           | Leaf _ l => lit +:+ l
           | Container _ _ => lit +:+ childLiterals child
           end)
        cs EmptyString
  end.

(** ** [ast.Walk] / [ast.WalkFunc] *)

Inductive WalkStatus : Type := GoToNext | SkipChildren | Terminate.

(** A visitor is a Go closure; the variables it captures and mutates are
    the state [S] it threads. *)
Definition NodeVisitor (S : Type) : Type := Node → bool → S → S * WalkStatus.

Definition isTerminate (s : WalkStatus) : bool :=
  match s with Terminate => true | _ => false end.

Definition isSkipChildren (s : WalkStatus) : bool :=
  match s with SkipChildren => true | _ => false end.

Section Walk.
Context {S : Type} (visitor : NodeVisitor S).

(** The library's traversal: visit on entering, walk the children of a
    container unless told to skip them, stop as soon as a child's walk
    terminates, visit a container again on leaving (also when the entering
    visit terminated). *)
Fixpoint Walk (n : Node) (s : S) : S * WalkStatus :=
  let '(s1, status) := visitor n true s in
  match n with
  | Leaf _ _ =>
      if isTerminate status then (s1, Terminate) else (s1, GoToNext)
  | Container _ children =>
      if isTerminate status then
        let '(s2, _) := visitor n false s1 in (s2, Terminate)
      else
        let '(s2, status2) :=
          if isSkipChildren status then (s1, status)
          else
            (fix children_loop (cs : list Node) (s : S) : S * WalkStatus :=
               match cs with
               | [] => (s, status)
               | c :: cs' =>
                   let '(s', st) := Walk c s in
                   if isTerminate st then (s', Terminate)
                   else children_loop cs' s'
               end) children s1 in
        if isTerminate status2 then (s2, Terminate)
        else
          let '(s3, status3) := visitor n false s2 in
          if isTerminate status3 then (s3, Terminate) else (s3, GoToNext)
  end.

Definition WalkFunc (n : Node) (s : S) : S * WalkStatus := Walk n s.
End Walk.

(** The loop of [Walk] over the children of a container, on its own. *)
Definition walk_children {S : Type} (visitor : NodeVisitor S)
    (status : WalkStatus) : list Node → S → S * WalkStatus :=
  fix children_loop (cs : list Node) (s : S) : S * WalkStatus :=
    match cs with
    | [] => (s, status)
    | c :: cs' =>
        let '(s', st) := Walk visitor c s in
        if isTerminate st then (s', Terminate)
        else children_loop cs' s'
    end.

(** ** Posts *)

(** [time.Time]: an instant and the zone it is shown in. *)
Record Location : Type := mkLocation { zoneName : string; zoneOffset : Z }.
Record Time : Type := mkTime { unixSec : Z; nsec : Z; loc : Location }.

Record postMetadata : Type := mkPostMetadata {
  DatePosted : Time;
  DatesEdited : list Time
}.

Record post : Type := mkPost {
  title : string;
  summary : string;
  url : string;
  metadata : option postMetadata   (* [*postMetadata], nil is [None] *)
}.

(** The zero value of [post] ([var p post]). *)
Definition zero_post : post := mkPost EmptyString EmptyString EmptyString None.

Definition set_title (p : post) (t : string) : post :=
  mkPost t (summary p) (url p) (metadata p).
Definition set_summary (p : post) (s : string) : post :=
  mkPost (title p) s (url p) (metadata p).
Definition set_url (p : post) (u : string) : post :=
  mkPost (title p) (summary p) u (metadata p).
Definition set_metadata (p : post) (m : option postMetadata) : post :=
  mkPost (title p) (summary p) (url p) m.

(** The closure [visitor] of [parsePost]; it captures and mutates [p]. *)
Definition visitor : NodeVisitor post :=
  fun node _ p =>
    match node with
    | Container (Heading Level) _ =>
        (if (Level =? 1) && String.eqb (title p) EmptyString
         then set_title p (childLiterals node) else p,
         GoToNext)
    | Container Paragraph _ =>
        (* Found first paragraph *)
        (set_summary p (childLiterals node), Terminate)
    | _ => (p, GoToNext)
    end.

(** [parsePost] after [parseMD]: the walk over the parsed tree. *)
Definition parsePostTree (rootnode : Node) : post :=
  fst (WalkFunc visitor rootnode zero_post).

(** ** Document order, for stating what the walk computes *)

(** The nodes of a tree in pre-order, depth first. *)
Fixpoint preorder (n : Node) : list Node :=
  n :: match n with
       | Leaf _ _ => []
       | Container _ cs => flat_map preorder cs
       end.

(** The literals of the leaves under a node, in child order. *)
Fixpoint literals (n : Node) : list string :=
  match n with
  | Leaf _ lit => [lit]
  | Container _ cs => flat_map literals cs
  end.

(** Literal text: the leaf literals in child order, no separators. *)
Definition literal_text (n : Node) : string :=
  fold_right String.append EmptyString (literals n).

Definition isParagraph (n : Node) : bool :=
  match n with Container Paragraph _ => true | _ => false end.

Definition isHeading1 (n : Node) : bool :=
  match n with Container (Heading l) _ => l =? 1 | _ => false end.

Definition nonempty (s : string) : bool := negb (String.eqb s EmptyString).

(** The prefix of a node sequence that ends with its first paragraph (the
    whole sequence when it has none). *)
Fixpoint upto_paragraph (l : list Node) : list Node :=
  match l with
  | [] => []
  | n :: l' => if isParagraph n then [n] else n :: upto_paragraph l'
  end.

(** What one entering visit does to [p]. *)
Definition visit (p : post) (n : Node) : post := fst (visitor n true p).

(** The title as the specification words it: the literal text of the first
    level-1 heading in document order, empty when there is none. *)
Definition first_heading1_title (doc : Node) : string :=
  match find isHeading1 (preorder doc) with
  | Some h => literal_text h
  | None => EmptyString
  end.

(** The title the walk finds: the literal text of the first level-1 heading
    with non-empty text among the nodes up to the first paragraph. *)
Definition title_before_paragraph (doc : Node) : string :=
  match find (fun n => isHeading1 n && nonempty (literal_text n))
             (upto_paragraph (preorder doc)) with
  | Some h => literal_text h
  | None => EmptyString
  end.

(** The literal text of the first paragraph in document order, empty when
    there is none. *)
Definition first_paragraph_text (doc : Node) : string :=
  match find isParagraph (preorder doc) with
  | Some par => literal_text par
  | None => EmptyString
  end.

Definition text (s : string) : Node := Leaf Text s.


(** Sample documents. *)
Definition doc_title_summary : Node :=
  Container Document
    [Container (Heading 1) [text "Title"];
     Container Paragraph [text "Summary text."]].

Definition doc_paragraph_first : Node :=
  Container Document
    [Container Paragraph [text "intro"];
     Container (Heading 1) [text "Title"]].

Definition doc_empty_heading : Node :=
  Container Document
    [Container (Heading 1) [];
     Container (Heading 1) [text "Second"];
     Container Paragraph [text "intro"]].

Definition doc_nested : Node :=
  Container Document
    [Container (Heading 2) [text "Sub"];
     Container List
       [Container ListItem
          [Container Paragraph
             [text "a "; Container Emph [text "b"]; text " c"]]];
     Container (Heading 1) [text "Late"];
     Container Paragraph [text "second"]].

(** ** Strings and paths: [strings], [path/filepath] (Unix) *)

Definition chars (s : string) : list ascii := list_ascii_of_string s.
Definition str (l : list ascii) : string := string_of_list_ascii l.

Definition slash : ascii := ascii_of_nat 47.
Definition dot : ascii := ascii_of_nat 46.

Fixpoint has_prefix (s prefix : list ascii) : bool :=
  match prefix, s with
  | [], _ => true
  | _ :: _, [] => false
  | c :: prefix', d :: s' => Ascii.eqb c d && has_prefix s' prefix'
  end.

Definition HasPrefix (s prefix : string) : bool :=
  has_prefix (chars s) (chars prefix).

Definition HasSuffix (s suffix : string) : bool :=
  has_prefix (rev (chars s)) (rev (chars suffix)).

(** [strings.TrimPrefix]: [s] without the leading [prefix]; [s] unchanged
    when it does not start with it. *)
Definition TrimPrefix (s prefix : string) : string :=
  if HasPrefix s prefix
  then str (drop (length (chars prefix)) (chars s))
  else s.

(** [strings.TrimSuffix]. *)
Definition TrimSuffix (s suffix : string) : string :=
  if HasSuffix s suffix
  then str (take (length (chars s) - length (chars suffix))%nat (chars s))
  else s.

(** The scan of [filepath.Ext] from the end of the path: [r] is what is
    left of the reversed path, [acc] the part already passed. *)
Fixpoint ext_scan (r acc : list ascii) : list ascii :=
  match r with
  | [] => []
  | c :: r' =>
      if Ascii.eqb c slash then []
      else if Ascii.eqb c dot then c :: acc
      else ext_scan r' (c :: acc)
  end.

(** [filepath.Ext]: the suffix beginning at the final dot in the final
    element of the path; empty if there is no dot. *)
Definition Ext (path : string) : string := str (ext_scan (rev (chars path)) []).

(** The elements of a path between its separators. *)
Fixpoint split_slash (l cur : list ascii) : list (list ascii) :=
  match l with
  | [] => [rev cur]
  | c :: l' =>
      if Ascii.eqb c slash then rev cur :: split_slash l' []
      else split_slash l' (c :: cur)
  end.

Definition is_dot (e : list ascii) : bool :=
  match e with [c] => Ascii.eqb c dot | _ => false end.

Definition is_dotdot (e : list ascii) : bool :=
  match e with [c; d] => Ascii.eqb c dot && Ascii.eqb d dot | _ => false end.

(** The elements kept by [filepath.Clean], last first: empty and [.]
    elements go, [..] removes the element before it, or goes itself at the
    root, or stays at the front of a relative path. *)
Fixpoint clean_elems (rooted : bool) (es kept : list (list ascii))
    : list (list ascii) :=
  match es with
  | [] => kept
  | e :: es' =>
      if match e with [] => true | _ => false end || is_dot e
      then clean_elems rooted es' kept
      else if is_dotdot e then
        match kept with
        | k :: kept' =>
            if is_dotdot k then clean_elems rooted es' (e :: kept)
            else clean_elems rooted es' kept'
        | [] =>
            if rooted then clean_elems rooted es' []
            else clean_elems rooted es' [e]
        end
      else clean_elems rooted es' (e :: kept)
  end.

Fixpoint join_slash (es : list (list ascii)) : list ascii :=
  match es with
  | [] => []
  | [e] => e
  | e :: es' => e ++ slash :: join_slash es'
  end.

(** A path written from its elements, [a/b/c]; an empty element stands for
    a doubled, a leading or a trailing separator. *)
Definition pathOf (els : list (list ascii)) : string := str (join_slash els).

(** The elements that [filepath.Clean] keeps as they are, when there is no
    [..]: those that are not empty and not [.]. *)
Definition kept_elem (e : list ascii) : bool :=
  negb (match e with [] => true | _ => false end || is_dot e).

(** [filepath.Clean]: the shortest path name equivalent to [path] by purely
    lexical processing. *)
Definition Clean (path : string) : string :=
  let l := chars path in
  let rooted := match l with c :: _ => Ascii.eqb c slash | [] => false end in
  let out := join_slash (rev (clean_elems rooted (split_slash l []) [])) in
  match rooted, out with
  | true, _ => str (slash :: out)
  | false, [] => "."
  | false, _ => str out
  end.

(** [filepath.Join] of two elements: empty elements are ignored, the
    result is cleaned; empty when both are empty. *)
Definition Join (a b : string) : string :=
  if String.eqb a EmptyString then
    if String.eqb b EmptyString then EmptyString else Clean b
  else Clean (a +:+ "/" +:+ b).

(** The split of [filepath.Split], from the end: [r] the reversed path. *)
Fixpoint split_last (r file : list ascii) : list ascii * list ascii :=
  match r with
  | [] => ([], file)
  | c :: r' =>
      if Ascii.eqb c slash then (rev r, file) else split_last r' (c :: file)
  end.

(** [filepath.Split]: the directory, with its final separator, and the
    file name after it. *)
Definition Split (path : string) : string * string :=
  let '(d, f) := split_last (rev (chars path)) [] in (str d, str f).

(** The destination of a page (lines 633-638 of [renderPages]). *)
Definition outputPath (srcpath destpath fname : string) : string :=
  (* trim source path *)
  let outpath := TrimPrefix fname srcpath in
  (* trim extension (and replace with .html) *)
  let outpath := TrimSuffix outpath (Ext outpath) in
  let outpath := outpath +:+ ".html" in
  Join destpath outpath.

(** The URL of a post (lines 647-648 of [renderPages]). *)
Definition postURLOf (destpath outpath : string) : string :=
  let postURL := TrimPrefix outpath destpath in
  TrimPrefix postURL "/" (* make it relative *).

(** ** Errors, outcomes and the world *)

(** A Go [error] value: its message, and whether [errors.Is] finds
    [os.ErrNotExist] in its chain. *)
Record error : Type := mkError { Error : string; IsNotExist : bool }.

(** [fmt.Errorf(prefix + "%w", err)]: the message is extended, the wrapped
    error stays in the chain. *)
Definition wrap (prefix : string) (err : error) : error :=
  mkError (prefix +:+ Error err) (IsNotExist err).

(** How a call ends: it returns, it panics, or the process exits. *)
Inductive outcome (A : Type) : Type :=
| Ret (a : A)
| Panic (msg : string)
| Exit (code : Z).
Arguments Ret {A} a.
Arguments Panic {A} msg.
Arguments Exit {A} code.

Definition nil_dereference : string :=
  "runtime error: invalid memory address or nil pointer dereference".

Record siteConfig : Type := mkSiteConfig {
  SiteName : string;
  SourcePath : string;
  DestinationPath : string;
  PageTemplateFile : string;
  ResourcePath : string;
  PostPattern : string
}.

Record templateData : Type := mkTemplateData {
  tdSiteName : string;
  Body : string;
  (* RelRoot is a relative path prefix that points to the root of the HTML
     destination directory. *)
  RelRoot : string
}.

(** [os.FileInfo], as far as [info.Mode()] is asked. *)
Record FileInfo : Type := mkFileInfo { IsRegular : bool; IsDir : bool }.

(** The standard library and the third-party packages the program calls. *)
Class Platform : Type := {
  (* os *)
  FS : Type;
  File : Type;
  os_ReadFile : string → FS → string + error;
  os_WriteFile : string → string → Z → FS → FS * option error;
  os_MkdirAll : string → Z → FS → FS * option error;
  os_Stat : string → FS → option error;
  os_Open : string → FS → File + error;
  File_Close : File → option error;
  (* path/filepath: [Walk] calls [fn] on the files under [root]; [fn]
     threads what it captures and prints ([U]) and the file system, and a
     panic in it unwinds through [Walk] *)
  filepath_Walk :
    ∀ U : Type, string →
      (string → FileInfo → option error → U → FS →
       (U * FS) * outcome (option error)) →
      U → FS → (U * FS) * outcome (option error);
  filepath_Rel : string → string → string + error;
  (* strconv.Quote, the [%q] verb *)
  Quote : string → string;
  (* encoding/json: [json.NewDecoder(fp).Decode(pm)] *)
  json_Decode : File → postMetadata + error;
  (* regexp *)
  Regexp : Type;
  regexp_Compile : string → Regexp + error;
  MatchString : Regexp → string → bool;
  (* html/template *)
  Template : Type;
  template_Parse : string → string → Template + error;
  template_Execute : Template → templateData → string + error;
  (* gomarkdown: parsing and rendering mutate the parser and the renderer *)
  Parser : Type;
  parser_CommonExtensions : Z;
  parser_AutoHeadingIDs : Z;
  parser_NewWithExtensions : Z → Parser;
  Parser_Parse : Parser → string → Node * Parser;
  Renderer : Type;
  html_NewRenderer : Renderer;   (* with the zero [RendererOptions] *)
  markdown_Render : Node → Renderer → string * Renderer;
  (* time *)
  time_Format : Time → string → string;
  (* viper: reading the file [config.*] in [.]; decoding it over the
     defaults *)
  viper_ReadInConfig : string → string → FS → option error;
  viper_UnmarshalExact : siteConfig → FS → siteConfig + error
}.

(** [time.RFC1123]. *)
Definition RFC1123 : string := "Mon, 02 Jan 2006 15:04:05 MST".

Section Program.
Context `{Platform}.

(** What the process can change: the file system and its two output
    streams. *)
Record World : Type := mkWorld {
  fs : FS;
  stdout : list string;
  stderr : list string
}.

Definition M (A : Type) : Type := World → World * outcome A.

Definition ret {A} (a : A) : M A := fun w => (w, Ret a).

Definition bind {A B} (m : M A) (k : A → M B) : M B :=
  fun w =>
    match m w with
    | (w', Ret a) => k a w'
    | (w', Panic msg) => (w', Panic msg)
    | (w', Exit code) => (w', Exit code)
    end.

Definition panic {A} (msg : string) : M A := fun w => (w, Panic msg).

(** Lift a call that can panic but touches nothing. *)
Definition lift {A} (o : outcome A) : M A := fun w => (w, o).

Definition read_fs {A} (f : FS → A) : M A := fun w => (w, Ret (f (fs w))).

Definition update_fs {A} (f : FS → FS * A) : M A :=
  fun w =>
    let '(fs', a) := f (fs w) in
    (mkWorld fs' (stdout w) (stderr w), Ret a).

(** [fmt.Printf] / [fmt.Println], the text already formatted. *)
Definition print (s : string) : M unit :=
  fun w => (mkWorld (fs w) (stdout w ++ [s]) (stderr w), Ret tt).

Definition eprint (s : string) : M unit :=
  fun w => (mkWorld (fs w) (stdout w) (stderr w ++ [s]), Ret tt).

(** [os.Exit]. *)
Definition os_Exit {A} (code : Z) : M A := fun w => (w, Exit code).
End Program.

Notation "'let!' x ':=' m 'in' k" := (bind m (fun x => k))
  (at level 10, x pattern, m at level 100, k at level 200,
   format "'[v' 'let!'  x  ':='  m  'in' '/' k ']'").
Notation "m ';;' k" := (bind m (fun _ => k))
  (at level 100, k at level 200, right associativity).

Section Pipeline.
Context `{Platform}.

(** Build metadata set by the linker flags. *)
Variables build commit : string.

Definition die {A} (msg : string) : M A :=
  eprint msg;;
  os_Exit 1.

Definition copyFile (srcName dstName : string) : M (option error) :=
  let! r := read_fs (os_ReadFile srcName) in
  match r with
  | inr err =>
      ret (Some (wrap ("reading file " +:+ Quote srcName +:+ " for copy: ") err))
  | inl data =>
      let! werr := update_fs (os_WriteFile dstName data 438) in
      match werr with
      | Some err =>
          ret (Some (wrap ("writing file " +:+ Quote dstName +:+ " for copy: ") err))
      | None => ret None
      end
  end.

Definition readTemplate (templateFile : string) : M (string + error) :=
  let! r := read_fs (os_ReadFile templateFile) in
  match r with
  | inr err =>
      ret (inr (wrap ("reading template file " +:+ Quote templateFile +:+ ": ") err))
  | inl thtml => ret (inl thtml)
  end.

Definition makeHTML (data : templateData) (templateFile : string)
    : M (string + error) :=
  let! r := readTemplate templateFile in
  match r with
  | inr err => ret (inr (wrap "making HTML: " err))
  | inl thtml =>
      match template_Parse "webpage" thtml with
      | inr err => ret (inr (wrap "making HTML: " err))
      | inl t =>
          match template_Execute t data with
          | inr err => ret (inr (wrap "making HTML: " err))
          | inl rendered => ret (inl rendered)
          end
      end
  end.

Definition default_config : siteConfig :=
  mkSiteConfig EmptyString "pages-md" "html" "templates/template.html" "res"
    "[0-9]{8}-.*".

Definition loadConfig : M (siteConfig + error) :=
  let! rerr := read_fs (viper_ReadInConfig "config" ".") in
  match rerr with
  | Some err => ret (inr (wrap "loading config: " err))
  | None =>
      let! r := read_fs (viper_UnmarshalExact default_config) in
      match r with
      | inr err => ret (inr (wrap "loading config: " err))
      | inl config => ret (inl config)
      end
  end.

Definition createDirs (conf : siteConfig) : M (option error) :=
  let destpath := DestinationPath conf in
  let! e1 := update_fs (os_MkdirAll destpath 511) in
  match e1 with
  | Some err =>
      ret (Some (wrap ("creating destination path " +:+ Quote destpath +:+ ": ") err))
  | None =>
      let imagepath := Join destpath "images" in
      let! e2 := update_fs (os_MkdirAll imagepath 511) in
      match e2 with
      | Some err =>
          ret (Some (wrap ("creating image path " +:+ Quote imagepath +:+ ": ") err))
      | None =>
          let respath := Join destpath "res" in
          let! e3 := update_fs (os_MkdirAll respath 511) in
          match e3 with
          | Some err =>
              ret (Some (wrap ("creating resource path " +:+ Quote respath +:+ ": ") err))
          | None => ret None
          end
      end
  end.

(** [parseMD]: each Parse call requires a new parser. *)
Definition parseMD (md : string) : M Node :=
  let mdparser :=
    parser_NewWithExtensions
      (Z.lor parser_CommonExtensions parser_AutoHeadingIDs) in
  ret (fst (Parser_Parse mdparser md)).

Definition parsePost (mdsource : string) : M post :=
  let! rootnode := parseMD mdsource in
  ret (parsePostTree rootnode).

(** The path of the metadata of a post: stored next to it, with the
    [.meta.json] extension. *)
Definition metadataPathOf (fname : string) : string :=
  let fnameNoExt := TrimSuffix fname (Ext fname) in
  fnameNoExt +:+ ".meta.json".

Definition readPostMetadata (fname : string)
    : M (option postMetadata * option error) :=
  let metadataPath := metadataPathOf fname in
  let! serr := read_fs (os_Stat metadataPath) in
  if match serr with Some err => IsNotExist err | None => false end
  then ret (None, None)
  else
    let! r := read_fs (os_Open metadataPath) in
    match r with
    | inr err =>
        ret (None, Some (wrap ("reading post metadata " +:+ Quote metadataPath +:+ ": ") err))
    | inl fp =>
        let result :=
          match json_Decode fp with
          | inr err =>
              (None, Some (wrap ("reading post metadata " +:+ Quote metadataPath +:+ ": ") err))
          | inl pm => (Some pm, None)
          end in
        (* the deferred close *)
        match File_Close fp with
        | Some err =>
            eprint ("closing file after reading post metadata: " +:+ Error err);;
            ret result
        | None => ret result
        end
    end.

(** [filepath.Walk] with a callback of the program: the callback
    captures [V] and acts on the world. *)
Definition Walk_M {V : Type} (root : string)
    (fn : string → FileInfo → option error → V → M (V * option error))
    (v0 : V) : M (V * option error) :=
  fun w =>
    let callback path info err (u : V * list string * list string) f :=
      let '(v, out, errs) := u in
      match fn path info err v (mkWorld f out errs) with
      | (w', Ret (v', e)) => ((v', stdout w', stderr w', fs w'), Ret e)
      | (w', Panic msg) => ((v, stdout w', stderr w', fs w'), Panic msg)
      | (w', Exit code) => ((v, stdout w', stderr w', fs w'), Exit code)
      end in
    match filepath_Walk (V * list string * list string) root callback
            (v0, stdout w, stderr w) (fs w) with
    | ((v, out, errs, f), Ret e) => (mkWorld f out errs, Ret (v, e))
    | ((v, out, errs, f), Panic msg) => (mkWorld f out errs, Panic msg)
    | ((v, out, errs, f), Exit code) => (mkWorld f out errs, Exit code)
    end.

(** The closure [mdfinder] of [collectMarkdownFiles]; it appends to
    [pagesmd]. *)
Definition mdfinder (path : string) (_ : FileInfo) (err : option error)
    (pagesmd : list string) : M (list string * option error) :=
  match err with
  | Some e => ret (pagesmd, Some e)
  | None =>
      if String.eqb (Ext path) ".md" then ret (pagesmd ++ [path], None)
      else ret (pagesmd, None)
  end.

Definition collectMarkdownFiles (srcpath : string) : M (list string + error) :=
  let! r := Walk_M srcpath mdfinder [] in
  match r with
  | (_, Some err) =>
      ret (inr (wrap ("collecting markdown files in " +:+ Quote srcpath +:+ ": ") err))
  | (pagesmd, None) => ret (inl pagesmd)
  end.

Definition plural (n : Z) : string :=
  if negb (n =? 1) then "s" else EmptyString.

(** One entry of the listing:
    [Sprintf("%d. [%s](%s)\n    - %s\n", idx, p.title, p.url, p.summary)]. *)
Definition listingEntry (idx : Z) (p : post) : string :=
  itoa idx +:+ ". [" +:+ title p +:+ "](" +:+ url p +:+ ")" +:+ nl +:+
  "    - " +:+ summary p +:+ nl.

(** The loop of [renderPostsPage] over the posts:
    [bodystr = Sprintf("%s...", bodystr, idx, ...)]. *)
Fixpoint listingLoop (posts : list post) (idx : Z) (bodystr : string) : string :=
  match posts with
  | [] => bodystr
  | p :: posts' => listingLoop posts' (idx + 1) (bodystr +:+ listingEntry idx p)
  end.

Definition listingBody (posts : list post) : string :=
  listingLoop posts 0 EmptyString.

Definition set_Body (data : templateData) (b : string) : templateData :=
  mkTemplateData (tdSiteName data) b (RelRoot data).
Definition set_RelRoot (data : templateData) (r : string) : templateData :=
  mkTemplateData (tdSiteName data) (Body data) r.

Definition renderPostsPage (posts : list post) (data : templateData)
    (renderer : Renderer) (templateFile destpath : string)
    : M (option error) :=
  print (":: Found " +:+ itoa (Z.of_nat (length posts)) +:+ " posts" +:+ nl);;
  (* render to listing page *)
  if (0 <? Z.of_nat (length posts)) then
    let bodystr := listingBody posts in
    let! doc := parseMD bodystr in
    let data := set_Body data (fst (markdown_Render doc renderer)) in
    let outpath := Join destpath "posts.html" in
    print ("   Saving posts: " +:+ outpath +:+ nl);;
    let! r := makeHTML data templateFile in
    match r with
    | inr err => ret (Some (wrap "making html for posts page: " err))
    | inl htmlData =>
        let! werr := update_fs (os_WriteFile outpath htmlData 438) in
        match werr with
        | Some err =>
            ret (Some (wrap ("writing posts page " +:+ Quote outpath +:+ ": ") err))
        | None => ret None
        end
    end
  else ret None.

(** [ast.AppendChild]: a leaf cannot have children. *)
Definition AppendChild (parent child : Node) : outcome Node :=
  match parent with
  | Container k cs => Ret (Container k (cs ++ [child]))
  | Leaf _ _ => Panic "leaf node cannot have children"
  end.

(** [addDate] adds the posted date to the end of the post; [doc] is
    changed in place, here returned. *)
Definition addDate (doc : Node) (p : post) : outcome Node :=
  match metadata p with
  | None => Panic nil_dereference   (* [p.metadata.DatePosted] *)
  | Some m =>
      let dateStr := time_Format (DatePosted m) RFC1123 in
      let footer := "Posted: " +:+ dateStr in
      let hr := Leaf HorizontalRule EmptyString in
      let dateParagraph := Container Paragraph [] in
      match AppendChild dateParagraph (Leaf Text footer) with
      | Ret dateParagraph =>
          match AppendChild doc hr with
          | Ret doc => AppendChild doc dateParagraph
          | Panic msg => Panic msg
          | Exit code => Exit code
          end
      | Panic msg => Panic msg
      | Exit code => Exit code
      end
  end.

(** The variables of [renderPages] that its loop changes. *)
Record loopState : Type := mkLoopState {
  st_data : templateData;
  st_renderer : Renderer;
  st_posts : list post;
  st_pagelist : list string
}.

(** The part of the loop body for a page that is a post (lines 646-657):
    the document with its footer and the posts with the new one. *)
Definition postPart (destpath outpath fname pagemd : string) (doc : Node)
    (posts : list post) : M ((Node * list post) + error) :=
  let! p := parsePost pagemd in
  let postURL := postURLOf destpath outpath in
  let p := set_url p postURL in
  let! r := readPostMetadata fname in
  match r with
  | (_, Some err) => ret (inr (wrap "rendering pages: " err))
  | (metadata, None) =>
      let p := set_metadata p metadata in
      let posts := posts ++ [p] in
      let! doc := lift (addDate doc p) in
      ret (inl (doc, posts))
  end.

(** The body of the loop of [renderPages]. *)
Definition renderPage (srcpath destpath templateFile : string)
    (postre : Regexp) (idx : nat) (fname : string) (st : loopState)
    : M (loopState + error) :=
  print ("   " +:+ itoa (Z.of_nat idx + 1) +:+ ": " +:+ fname);;
  let outpath := outputPath srcpath destpath fname in
  let! r := read_fs (os_ReadFile fname) in
  match r with
  | inr err =>
      ret (inr (wrap ("rendering pages: reading file " +:+ Quote fname +:+ ": ") err))
  | inl pagemd =>
      let! doc := parseMD pagemd in
      let! r :=
        (if MatchString postre fname
         then postPart destpath outpath fname pagemd doc (st_posts st)
         else ret (inl (doc, st_posts st))) in
      match r with
      | inr err => ret (inr err)
      | inl (doc, posts) =>
          let '(body, renderer) := markdown_Render doc (st_renderer st) in
          let data := set_Body (st_data st) body in
          (* make potential parent directory *)
          let outpathpar := fst (Split outpath) in
          let! mk :=
            (if negb (String.eqb outpathpar destpath)
             then update_fs (os_MkdirAll outpathpar 511)
             else ret None) in
          match mk with
          | Some err =>
              ret (inr (wrap ("rendering pages: creating path " +:+ Quote outpathpar +:+ ": ") err))
          | None =>
              let data :=
                set_RelRoot data
                  match filepath_Rel outpathpar destpath with
                  | inl rel => rel
                  | inr _ => EmptyString
                  end in
              let! r := makeHTML data templateFile in
              match r with
              | inr err => ret (inr (wrap "rending pages: " err))
              | inl htmlData =>
                  let! werr := update_fs (os_WriteFile outpath htmlData 438) in
                  match werr with
                  | Some err =>
                      ret (inr (wrap ("rendering pages: writing html file " +:+ Quote outpath +:+ ": ") err))
                  | None =>
                      print (" -> " +:+ outpath +:+ nl);;
                      ret (inl (mkLoopState data renderer posts
                                  (<[idx := outpath]> (st_pagelist st))))
                  end
              end
          end
      end
  end.

(** [for idx, fname := range pagesmd]: an error returns at once. *)
Fixpoint pageLoop (srcpath destpath templateFile : string) (postre : Regexp)
    (idx : nat) (pagesmd : list string) (st : loopState)
    : M (loopState + error) :=
  match pagesmd with
  | [] => ret (inl st)
  | fname :: rest =>
      let! r := renderPage srcpath destpath templateFile postre idx fname st in
      match r with
      | inr err => ret (inr err)
      | inl st' => pageLoop srcpath destpath templateFile postre (S idx) rest st'
      end
  end.

Definition renderPages (conf : siteConfig) : M (option error) :=
  let srcpath := SourcePath conf in
  let sitename := SiteName conf in
  let data := mkTemplateData sitename EmptyString EmptyString in
  let! r := collectMarkdownFiles srcpath in
  match r with
  | inr err => ret (Some (wrap "rendering pages: " err))
  | inl pagesmd =>
      let npages := length pagesmd in
      let pagelist := replicate npages EmptyString in
      let destpath := DestinationPath conf in
      let templateFile := PageTemplateFile conf in
      let postrePattern := PostPattern conf in
      print (":: Rendering " +:+ itoa (Z.of_nat npages) +:+ " page" +:+
             plural (Z.of_nat npages) +:+ nl);;
      match regexp_Compile postrePattern with
      | inr err => ret (Some (wrap "rendering pages: " err))
      | inl postre =>
          let! r := pageLoop srcpath destpath templateFile postre 0 pagesmd
                      (mkLoopState data html_NewRenderer [] pagelist) in
          match r with
          | inr err => ret (Some err)
          | inl st =>
              (* the error that [renderPostsPage] returns is dropped *)
              renderPostsPage (st_posts st) (st_data st) (st_renderer st)
                templateFile destpath;;
              print (":: Rendering complete!" +:+ nl);;
              ret None
          end
      end
  end.

(** The state and the world in which the loop of [renderPages] starts
    on the files it found. *)
Definition loopInit (conf : siteConfig) (pagesmd : list string) : loopState :=
  mkLoopState (mkTemplateData (SiteName conf) EmptyString EmptyString)
    html_NewRenderer [] (replicate (length pagesmd) EmptyString).

Definition loopWorld (pagesmd : list string) (w : World) : World :=
  fst (print (":: Rendering " +:+ itoa (Z.of_nat (length pagesmd)) +:+
              " page" +:+ plural (Z.of_nat (length pagesmd)) +:+ nl) w).

(** The closure [walker] of [copyResources]. *)
Definition walker (dstroot srcloc : string) (info : FileInfo)
    (err : option error) (_ : unit) : M (unit * option error) :=
  match err with
  | Some e => ret (tt, Some e)
  | None =>
      if IsRegular info then
        let dstloc := Join dstroot srcloc in
        print ("   " +:+ srcloc +:+ " -> " +:+ dstloc +:+ nl);;
        let! cerr := copyFile srcloc dstloc in
        match cerr with
        | Some e => ret (tt, Some (wrap "copying resources: " e))
        | None => ret (tt, None)
        end
      else if IsDir info then
        let dstloc := Join dstroot srcloc in
        print ("   Creating directory " +:+ dstloc +:+ nl);;
        let! merr := update_fs (os_MkdirAll dstloc 511) in
        match merr with
        | Some e =>
            ret (tt, Some (wrap ("copying resources: creating path " +:+ Quote dstloc +:+ ": ") e))
        | None => ret (tt, None)
        end
      else ret (tt, None)
  end.

(** [copyResources] copies all files from the configured resource
    directory to the destination path. *)
Definition copyResources (conf : siteConfig) : M (option error) :=
  print (":: Copying resources" +:+ nl);;
  let dstroot := DestinationPath conf in
  let! r := Walk_M (ResourcePath conf) (walker dstroot) tt in
  match r with
  | (_, Some err) => ret (Some err)
  | (_, None) =>
      print ("== Done ==" +:+ nl);;
      ret None
  end.

(** [init]. *)
Definition verstr : string :=
  if String.eqb build EmptyString then "statiko [dev build]"
  else "statiko Build " +:+ build +:+ " (" +:+ commit +:+ ")".

Definition printversion : M unit := print (verstr +:+ nl).

(** [main], after [flag.Parse] has set [printver]. *)
Definition main (printver : bool) : M unit :=
  if printver then printversion
  else
    let! r := loadConfig in
    match r with
    | inr err => die ("error: " +:+ Error err)
    | inl conf =>
        let! e := createDirs conf in
        match e with
        | Some err => die ("error: " +:+ Error err)
        | None =>
            let! e := renderPages conf in
            match e with
            | Some err => die ("error: " +:+ Error err)
            | None =>
                let! e := copyResources conf in
                match e with
                | Some err => die ("error: " +:+ Error err)
                | None => ret tt
                end
            end
        end
    end.

(** The process: the exit status is 0 when [main] returns, the code of
    [os.Exit], and 2 after a panic, which the runtime reports on standard
    error. *)
Definition run (printver : bool) (w : World) : World * Z :=
  match main printver w with
  | (w', Ret _) => (w', 0)
  | (w', Exit code) => (w', code)
  | (w', Panic msg) =>
      (mkWorld (fs w') (stdout w') (stderr w' ++ ["panic: " +:+ msg]), 2)
  end.
End Pipeline.

(** ** A small platform to run the program on

    The file system is a list of paths with the file or directory at each,
    kept in the order in which a walk visits them.
    The Markdown parser, the renderer, the template engine, the JSON
    decoder and the configuration reader are stand-ins with the right
    types; the regular expressions are the default post pattern only. *)

Module Sim.
Inductive Entry : Type := RegFile (content : string) | Dir.

Definition dq : string := String (ascii_of_nat 34) EmptyString.

Definition not_exist (op name : string) : error :=
  mkError (op +:+ " " +:+ name +:+ ": no such file or directory") true.
Definition is_a_directory (op name : string) : error :=
  mkError (op +:+ " " +:+ name +:+ ": is a directory") false.
Definition not_a_directory (op name : string) : error :=
  mkError (op +:+ " " +:+ name +:+ ": not a directory") false.

(** The order of a walk: element by element, a directory before what is
    in it. *)
Fixpoint chars_le (a b : list ascii) : bool :=
  match a, b with
  | [], _ => true
  | _ :: _, [] => false
  | x :: a', y :: b' =>
      if (nat_of_ascii x <? nat_of_ascii y)%nat then true
      else if (nat_of_ascii y <? nat_of_ascii x)%nat then false
      else chars_le a' b'
  end.

Fixpoint elems_le (a b : list (list ascii)) : bool :=
  match a, b with
  | [], _ => true
  | _ :: _, [] => false
  | x :: a', y :: b' =>
      if chars_le x y then (if chars_le y x then elems_le a' b' else true)
      else false
  end.

Definition path_le (a b : string) : bool :=
  elems_le (split_slash (chars a) []) (split_slash (chars b) []).

Fixpoint fs_lookup (name : string) (f : list (string * Entry)) : option Entry :=
  match f with
  | [] => None
  | (n, e) :: f' => if String.eqb n name then Some e else fs_lookup name f'
  end.

Fixpoint fs_insert (name : string) (e : Entry) (f : list (string * Entry))
    : list (string * Entry) :=
  match f with
  | [] => [(name, e)]
  | (n, x) :: f' =>
      if String.eqb n name then (name, e) :: f'
      else if path_le name n then (name, e) :: f
      else (n, x) :: fs_insert name e f'
  end.


Definition ReadFile (name : string) (f : list (string * Entry)) : string + error :=
  match fs_lookup name f with
  | Some (RegFile c) => inl c
  | Some Dir => inr (is_a_directory "read" name)
  | None => inr (not_exist "open" name)
  end.

Definition WriteFile (name data : string) (perm : Z) (f : list (string * Entry))
    : list (string * Entry) * option error :=
  match fs_lookup name f with
  | Some Dir => (f, Some (is_a_directory "open" name))
  | _ => (fs_insert name (RegFile data) f, None)
  end.

Definition MkdirAll (path : string) (perm : Z) (f : list (string * Entry))
    : list (string * Entry) * option error :=
  match fs_lookup (Clean path) f with
  | Some (RegFile _) => (f, Some (not_a_directory "mkdir" path))
  | _ => (fs_insert (Clean path) Dir f, None)
  end.

Definition Stat (name : string) (f : list (string * Entry)) : option error :=
  match fs_lookup name f with
  | Some _ => None
  | None => Some (not_exist "stat" name)
  end.

Definition under (root : string) (e : string * Entry) : bool :=
  String.eqb e.1 root || HasPrefix e.1 (root +:+ "/").

Definition info_of (e : Entry) : FileInfo :=
  match e with
  | RegFile _ => mkFileInfo true false
  | Dir => mkFileInfo false true
  end.

Section Walk.
Context {U : Type}
  (fn : string → FileInfo → option error → U → list (string * Entry) →
        (U * list (string * Entry)) * outcome (option error)).

Fixpoint visit_all (es : list (string * Entry)) (u : U)
    (f : list (string * Entry))
    : (U * list (string * Entry)) * outcome (option error) :=
  match es with
  | [] => ((u, f), Ret None)
  | (path, e) :: es' =>
      match fn path (info_of e) None u f with
      | ((u', f'), Ret None) => visit_all es' u' f'
      | r => r
      end
  end.

Definition Walk (root : string) (u : U) (f : list (string * Entry))
    : (U * list (string * Entry)) * outcome (option error) :=
  match fs_lookup root f with
  | None => fn root (mkFileInfo false false) (Some (not_exist "lstat" root)) u f
  | Some _ =>
      visit_all (filter (λ e, Is_true (under root e)) f) u f
  end.
End Walk.

(** [filepath.Rel] when the target is the base or above it. *)
Definition Rel (basepath targpath : string) : string + error :=
  let b := Clean basepath in
  let t := Clean targpath in
  if String.eqb b t then inl "."
  else if HasPrefix b (t +:+ "/") then
    let up := (length (split_slash (chars b) []) -
               length (split_slash (chars t) []))%nat in
    inl (str (join_slash (replicate up (chars ".."))))
  else inr (mkError ("Rel: can't make " +:+ targpath +:+ " relative to " +:+ basepath) false).

Definition is_digit (c : ascii) : bool :=
  (48 <=? nat_of_ascii c)%nat && (nat_of_ascii c <=? 57)%nat.

(** A match of [[0-9]{8}-.*] anywhere in [s]: eight digits and a dash. *)
Fixpoint date_at (n : nat) (s : list ascii) : bool :=
  match n, s with
  | O, c :: _ => Ascii.eqb c (ascii_of_nat 45)
  | S n', c :: s' => is_digit c && date_at n' s'
  | _, [] => false
  end.

Fixpoint has_date (s : list ascii) : bool :=
  match s with
  | [] => false
  | _ :: s' => date_at 8 s || has_date s'
  end.

Definition Compile (pattern : string) : string + error :=
  if String.eqb pattern "[0-9]{8}-.*" then inl pattern
  else inr (mkError ("error parsing regexp: " +:+ pattern) false).

Definition utc : Location := mkLocation "UTC" 0.

Definition Decode (content : string) : postMetadata + error :=
  if String.eqb content EmptyString then inr (mkError "EOF" false)
  else inl (mkPostMetadata (mkTime 0 0 utc) []).

Definition ReadInConfig (name path : string) (f : list (string * Entry))
    : option error :=
  match fs_lookup (name +:+ ".yaml") f with
  | Some (RegFile _) => None
  | _ => Some (mkError ("Config File " +:+ dq +:+ name +:+ dq +:+ " Not Found") false)
  end.

Definition UnmarshalExact (defaults : siteConfig) (f : list (string * Entry))
    : siteConfig + error :=
  match fs_lookup "config.yaml" f with
  | Some (RegFile name) =>
      inl (mkSiteConfig name (SourcePath defaults) (DestinationPath defaults)
             (PageTemplateFile defaults) (ResourcePath defaults)
             (PostPattern defaults))
  | _ => inl defaults
  end.

#[export] Instance platform : Platform := {|
  FS := list (string * Entry);
  File := string;
  os_ReadFile := ReadFile;
  os_WriteFile := WriteFile;
  os_MkdirAll := MkdirAll;
  os_Stat := Stat;
  os_Open := ReadFile;
  File_Close := λ _, None;
  filepath_Walk := λ U root fn, Walk fn root;
  filepath_Rel := Rel;
  Quote := λ s, dq +:+ s +:+ dq;
  json_Decode := Decode;
  Regexp := string;
  regexp_Compile := Compile;
  MatchString := λ _ s, has_date (chars s);
  Template := string;
  template_Parse := λ _ thtml, inl thtml;
  template_Execute := λ t d, inl (t +:+ tdSiteName d +:+ Body d +:+ RelRoot d);
  Parser := unit;
  parser_CommonExtensions := 0;
  parser_AutoHeadingIDs := 0;
  parser_NewWithExtensions := λ _, tt;
  Parser_Parse := λ p md, (Container Document [Container Paragraph [text md]], p);
  Renderer := unit;
  html_NewRenderer := tt;
  markdown_Render := λ doc r, (literal_text doc, r);
  time_Format := λ t _, itoa (unixSec t);
  viper_ReadInConfig := ReadInConfig;
  viper_UnmarshalExact := UnmarshalExact
|}.

Definition files (l : list (string * Entry)) : World :=
  mkWorld (foldr (λ ne, fs_insert ne.1 ne.2) [] l) [] [].

Definition site : list (string * Entry) :=
  [("config.yaml", RegFile "Site");
   ("pages-md", Dir);
   ("templates/template.html", RegFile "T");
   ("res", Dir)].

(** A site with one page that is no post. *)
Definition world_page : World :=
  files (("pages-md/about.md", RegFile "About") :: site).

(** A site with one post that has no metadata file. *)
Definition world_post_no_metadata : World :=
  files (("pages-md/20230101-hello.md", RegFile "Hello") :: site).

(** A site with one post and its metadata. *)
Definition world_post : World :=
  files (("pages-md/20230101-hello.md", RegFile "Hello") ::
         ("pages-md/20230101-hello.meta.json", RegFile "{}") :: site).

(** The same site, where [html/posts.html] is a directory. *)
Definition world_listing_blocked : World :=
  files (("html/posts.html", Dir) ::
         ("pages-md/20230101-hello.md", RegFile "Hello") ::
         ("pages-md/20230101-hello.meta.json", RegFile "{}") :: site).

(** A site with one post whose metadata file is empty. *)
Definition world_bad_metadata : World :=
  files (("pages-md/20230101-hello.md", RegFile "Hello") ::
         ("pages-md/20230101-hello.meta.json", RegFile EmptyString) :: site).

(** A site with a page, a post with metadata and a page that cannot be
    read (a directory named like a page). *)
Definition world_mixed : World :=
  files (("pages-md/20230101-hello.md", RegFile "Hello") ::
         ("pages-md/20230101-hello.meta.json", RegFile "{}") ::
         ("pages-md/about.md", RegFile "About") ::
         ("pages-md/broken.md", Dir) :: site).

(** A site with a style sheet among its resources. *)
Definition world_resources : World :=
  files (("res/css", Dir) :: ("res/css/style.css", RegFile "body{}") :: site).

Definition conf : siteConfig :=
  mkSiteConfig "Site" "pages-md" "html" "templates/template.html" "res"
    "[0-9]{8}-.*".
End Sim.

(** * Properties *)

(** An induction principle that reaches the children of a container. *)
Lemma Node_ind' (P : Node → Prop) :
  (∀ k lit, P (Leaf k lit)) →
  (∀ k cs, Forall P cs → P (Container k cs)) →
  ∀ n, P n.
Proof.
  intros HL HC. fix IH 1. intros [k lit | k cs].
  - apply HL.
  - apply HC. induction cs as [| c cs IHcs]; constructor; [apply IH | apply IHcs].
Qed.


(** ** The walk of [parsePost] *)

Section WalkFacts.
Context {S : Type} (v : NodeVisitor S).

Lemma Walk_leaf k lit s :
  Walk v (Leaf k lit) s =
  (fst (v (Leaf k lit) true s),
   if isTerminate (snd (v (Leaf k lit) true s)) then Terminate else GoToNext).
Proof. simpl. destruct (v (Leaf k lit) true s) as [s1 st]. by destruct st. Qed.

Lemma Walk_container k cs s :
  Walk v (Container k cs) s =
  let '(s1, status) := v (Container k cs) true s in
  if isTerminate status then
    let '(s2, _) := v (Container k cs) false s1 in (s2, Terminate)
  else
    let '(s2, status2) :=
      if isSkipChildren status then (s1, status)
      else walk_children v status cs s1 in
    if isTerminate status2 then (s2, Terminate)
    else
      let '(s3, status3) := v (Container k cs) false s2 in
      if isTerminate status3 then (s3, Terminate) else (s3, GoToNext).
Proof. reflexivity. Qed.
End WalkFacts.

Lemma string_eqb_empty (s : string) : String.eqb s EmptyString = true ↔ s = EmptyString.
Proof. apply String.eqb_eq. Qed.

Lemma visitor_flag n b p : visitor n b p = visitor n true p.
Proof. reflexivity. Qed.

Lemma visitor_visit n b p : fst (visitor n b p) = visit p n.
Proof. reflexivity. Qed.

Lemma visitor_status n b p : isTerminate (snd (visitor n b p)) = isParagraph n.
Proof. destruct n as [k l | k cs]; [done |]. by destruct k. Qed.

Lemma visitor_no_skip n b p : isSkipChildren (snd (visitor n b p)) = false.
Proof. destruct n as [k l | k cs]; [done |]. by destruct k. Qed.

Lemma upto_paragraph_app l1 l2 :
  upto_paragraph (l1 ++ l2) =
  if existsb isParagraph l1 then upto_paragraph l1 else l1 ++ upto_paragraph l2.
Proof.
  induction l1 as [| n l1 IH]; [done |].
  simpl. destruct (isParagraph n); simpl; [done |].
  rewrite IH. by destruct (existsb isParagraph l1).
Qed.

Lemma upto_paragraph_none l :
  existsb isParagraph l = false → upto_paragraph l = l.
Proof.
  induction l as [| n l IH]; [done |]. simpl.
  destruct (isParagraph n); simpl; [done |]. intros H. by rewrite IH.
Qed.

Lemma visit_heading L cs p :
  visit p (Container (Heading L) cs) =
  if (L =? 1) && String.eqb (title p) EmptyString
  then set_title p (childLiterals (Container (Heading L) cs)) else p.
Proof. reflexivity. Qed.

Lemma visit_paragraph cs p :
  visit p (Container Paragraph cs) =
  set_summary p (childLiterals (Container Paragraph cs)).
Proof. reflexivity. Qed.

Lemma visit_other n p :
  isParagraph n = false → isHeading1 n = false → visit p n = p.
Proof.
  destruct n as [k l | k cs]; [done |]. destruct k; try done.
  intros _ H. rewrite visit_heading. simpl in H. by rewrite H.
Qed.

(** Once a title is set no later visit changes it. *)
Lemma visit_title_set p n :
  title p ≠ EmptyString → title (visit p n) = title p.
Proof.
  intros Ht. destruct n as [k l | k cs]; [done |].
  destruct k; try done. rewrite visit_heading.
  apply String.eqb_neq in Ht. by rewrite Ht, andb_false_r.
Qed.

Lemma fold_visit_title_set l p :
  title p ≠ EmptyString → title (fold_left visit l p) = title p.
Proof.
  revert p. induction l as [| n l IH]; [done |]. intros p Ht. simpl.
  rewrite IH; rewrite visit_title_set; done.
Qed.

(** The visit of a container on leaving changes nothing: a heading that set
    the title finds it set, and one that could not (its text is empty) sets
    the empty title again. *)
Lemma visit_again n l p :
  isParagraph n = false →
  visit (fold_left visit l (visit p n)) n = fold_left visit l (visit p n).
Proof.
  intros Hn. destruct n as [k lit | k cs]; [done |].
  destruct k; try done.
  set (h := Container (Heading Level) cs).
  set (s2 := fold_left visit l (visit p h)).
  replace (visit s2 h) with
    (if (Level =? 1) && String.eqb (title s2) EmptyString
     then set_title s2 (childLiterals h) else s2) by done.
  destruct (Level =? 1) eqn:EL; [| done]. cbn [andb].
  destruct (String.eqb (title s2) EmptyString) eqn:E2; [| done].
  apply string_eqb_empty in E2.
  assert (Hcl : childLiterals h = EmptyString).
  { destruct (String.eqb (title p) EmptyString) eqn:Ep.
    - destruct (String.eqb (childLiterals h) EmptyString) eqn:Ec.
      + by apply string_eqb_empty in Ec.
      + exfalso. apply String.eqb_neq in Ec.
        assert (Hv : title (visit p h) = childLiterals h).
        { unfold h. rewrite visit_heading. by rewrite EL, Ep. }
        subst s2. rewrite fold_visit_title_set in E2; congruence.
    - exfalso. apply String.eqb_neq in Ep.
      subst s2. rewrite fold_visit_title_set in E2.
      + rewrite visit_title_set in E2; done.
      + by rewrite visit_title_set. }
  rewrite Hcl. destruct s2 as [t s u m]. simpl in *. by subst t.
Qed.

Lemma walk_children_visitor status cs :
  Forall (λ n, ∀ p, Walk visitor n p =
                    (fold_left visit (upto_paragraph (preorder n)) p,
                     if existsb isParagraph (preorder n)
                     then Terminate else GoToNext)) cs →
  ∀ p, walk_children visitor status cs p =
       (fold_left visit (upto_paragraph (flat_map preorder cs)) p,
        if existsb isParagraph (flat_map preorder cs) then Terminate else status).
Proof.
  induction 1 as [| c cs Hc _ IH]; intros p; [done |].
  simpl. rewrite Hc, upto_paragraph_app, existsb_app.
  destruct (existsb isParagraph (preorder c)) eqn:Hex; simpl; [done |].
  by rewrite IH, fold_left_app, (upto_paragraph_none _ Hex).
Qed.

(** The walk applies the entering visit to the nodes in document order up
    to the first paragraph, and terminates exactly when there is one. *)
Lemma Walk_visitor n p :
  Walk visitor n p =
  (fold_left visit (upto_paragraph (preorder n)) p,
   if existsb isParagraph (preorder n) then Terminate else GoToNext).
Proof.
  revert p. induction n as [k lit | k cs IH] using Node_ind'; intros p.
  - rewrite Walk_leaf. done.
  - rewrite Walk_container.
    change (preorder (Container k cs))
      with (Container k cs :: flat_map preorder cs).
    remember (Container k cs) as n eqn:Hn.
    cbn [upto_paragraph existsb fold_left].
    pose proof (visitor_status n true p) as Hst.
    pose proof (visitor_no_skip n true p) as Hsk.
    pose proof (visitor_visit n true p) as Hv.
    destruct (visitor n true p) as [s1 status].
    cbn [fst snd] in Hst, Hsk, Hv. subst s1. rewrite Hst, Hsk.
    destruct (isParagraph n) eqn:Hpar; cbn [orb].
    + pose proof (visitor_visit n false (visit p n)) as Hv2.
      destruct (visitor n false (visit p n)) as [s2 st2].
      cbn [fst] in Hv2. subst s2 n. by destruct k.
    + rewrite (walk_children_visitor status cs IH).
      destruct (existsb isParagraph (flat_map preorder cs)) eqn:Hex; [done |].
      rewrite Hst, (upto_paragraph_none _ Hex).
      set (s2 := fold_left visit (flat_map preorder cs) (visit p n)).
      pose proof (visitor_status n false s2) as Hst3.
      pose proof (visitor_visit n false s2) as Hv3.
      destruct (visitor n false s2) as [s3 st3].
      cbn [fst snd] in Hst3, Hv3. rewrite Hst3, Hpar. subst s3 s2.
      by rewrite visit_again.
Qed.

(** ** Literal text *)

Lemma append_empty_r (s : string) : s +:+ EmptyString = s.
Proof.
  induction s as [| a s IH]; [done |].
  change (String a (s +:+ EmptyString) = String a s). by rewrite IH.
Qed.

Lemma append_assoc (a b c : string) : (a +:+ b) +:+ c = a +:+ (b +:+ c).
Proof.
  induction a as [| x a IH]; [done |].
  change (String x ((a +:+ b) +:+ c) = String x (a +:+ (b +:+ c))).
  by rewrite IH.
Qed.

Lemma concat_literals_app (l1 l2 : list string) :
  fold_right String.append EmptyString (l1 ++ l2) =
  fold_right String.append EmptyString l1 +:+
  fold_right String.append EmptyString l2.
Proof.
  induction l1 as [| s l1 IH]; [done |]. simpl. by rewrite IH, append_assoc.
Qed.

Lemma childLiterals_cases n :
  childLiterals n =
  match n with
  | Leaf _ _ => EmptyString
  | Container _ _ => literal_text n
  end.
Proof.
  induction n as [k lit | k cs IH] using Node_ind'; [done |].
  unfold literal_text. simpl.
  enough (∀ acc,
    fold_left (λ lit child,
                 match child with
                 | Leaf _ l => lit +:+ l
                 | Container _ _ => lit +:+ childLiterals child
                 end) cs acc =
    acc +:+ fold_right String.append EmptyString (flat_map literals cs))
    as H by (by rewrite H).
  induction IH as [| c cs' Hc _ IHcs]; intros acc.
  - simpl. by rewrite append_empty_r.
  - simpl. rewrite IHcs, concat_literals_app. destruct c as [kc l | kc ccs].
    + simpl. by rewrite append_empty_r, append_assoc.
    + rewrite Hc. unfold literal_text. by rewrite append_assoc.
Qed.

(** [childLiterals] of a container is the literal text of its leaves. *)
Lemma childLiterals_literal_text k cs :
  childLiterals (Container k cs) = literal_text (Container k cs).
Proof. apply (childLiterals_cases (Container k cs)). Qed.

(** ** Title and summary *)

Lemma parsePostTree_fold doc :
  parsePostTree doc = fold_left visit (upto_paragraph (preorder doc)) zero_post.
Proof. unfold parsePostTree, WalkFunc. by rewrite Walk_visitor. Qed.

Lemma fold_visit_title l p :
  title (fold_left visit l p) =
  if nonempty (title p) then title p
  else match find (λ n, isHeading1 n && nonempty (childLiterals n)) l with
       | Some h => childLiterals h
       | None => EmptyString
       end.
Proof.
  revert p. induction l as [| n l IH]; intros p.
  - simpl. unfold nonempty. destruct (String.eqb (title p) EmptyString) eqn:E; [| done].
    by apply string_eqb_empty in E.
  - cbn [fold_left find]. rewrite IH. clear IH.
    destruct (String.eqb (title p) EmptyString) eqn:Ep.
    + assert (Hnp : nonempty (title p) = false)
        by (unfold nonempty; by rewrite Ep).
      rewrite Hnp.
      destruct (isHeading1 n) eqn:Hh; cbn [andb].
      * destruct n as [kn ln | kn cs]; [done |]. destruct kn; try done.
        simpl in Hh. rewrite visit_heading, Hh, Ep.
        cbn [andb set_title title].
        by destruct (nonempty (childLiterals (Container (Heading Level) cs))).
      * assert (title (visit p n) = title p) as ->.
        { destruct n as [kn ln | kn cs]; [done |]. destruct kn; try done.
          simpl in Hh. by rewrite visit_heading, Hh. }
        by rewrite Hnp.
    + assert (Hne : title p ≠ EmptyString) by (by apply String.eqb_neq).
      rewrite (visit_title_set _ _ Hne). unfold nonempty. by rewrite Ep.
Qed.

Lemma fold_visit_summary l p :
  summary (fold_left visit (upto_paragraph l) p) =
  match find isParagraph l with
  | Some par => childLiterals par
  | None => summary p
  end.
Proof.
  revert p. induction l as [| n l IH]; intros p; [done |].
  cbn [upto_paragraph find]. destruct (isParagraph n) eqn:Hp.
  - destruct n as [kn ln | kn cs]; [done |]. by destruct kn.
  - cbn [fold_left]. rewrite IH.
    assert (summary (visit p n) = summary p) as ->; [| done].
    destruct n as [kn ln | kn cs]; [done |]. destruct kn; try done.
    rewrite visit_heading. by destruct (_ && _).
Qed.

Lemma find_existsb {A} (f : A → bool) (l : list A) :
  existsb f l = match find f l with Some _ => true | None => false end.
Proof. induction l as [| a l IH]; [done |]. simpl. by destruct (f a). Qed.

Lemma find_text_of_containers (f : Node → bool) (l : list Node) :
  (∀ n, f n = true → isContainer n = true) →
  match find (λ n, f n && nonempty (childLiterals n)) l with
  | Some h => childLiterals h
  | None => EmptyString
  end =
  match find (λ n, f n && nonempty (literal_text n)) l with
  | Some h => literal_text h
  | None => EmptyString
  end.
Proof.
  intros Hf. induction l as [| n l IH]; [done |]. cbn [find].
  destruct (f n) eqn:En; cbn [andb]; [| done].
  destruct n as [k lit | k cs]; [by apply Hf in En |].
  rewrite childLiterals_literal_text.
  destruct (nonempty _); [apply childLiterals_literal_text | done].
Qed.

Lemma find_paragraph_text (l : list Node) (d : string) :
  match find isParagraph l with
  | Some par => childLiterals par
  | None => d
  end =
  match find isParagraph l with
  | Some par => literal_text par
  | None => d
  end.
Proof.
  induction l as [| n l IH]; [done |]. cbn [find].
  destruct (isParagraph n) eqn:En; [| done].
  destruct n as [k lit | k cs]; [done |]. apply childLiterals_literal_text.
Qed.

Lemma isHeading1_container n : isHeading1 n = true → isContainer n = true.
Proof. by destruct n. Qed.

(** The round trip of the specification: one level-1 heading and one
    paragraph. *)
Example parsePost_title_summary :
  parsePostTree doc_title_summary =
  mkPost "Title" "Summary text." EmptyString None.
Proof. reflexivity. Qed.

Example parsePost_nested :
  parsePostTree doc_nested = mkPost EmptyString "a b c" EmptyString None.
Proof. reflexivity. Qed.

(** A level-1 heading without text leaves the title unset, and the next
    level-1 heading sets it. *)
Example parsePost_empty_heading :
  title (parsePostTree doc_empty_heading) = "Second" ∧
  first_heading1_title doc_empty_heading = EmptyString.
Proof. split; reflexivity. Qed.

(** C4, as stated, fails: the title is not the text of the first level-1
    heading of the document when a paragraph comes before that heading; the
    walk has stopped at the paragraph and the title stays empty. *)
Lemma title_first_heading1_counterexample :
  first_heading1_title doc_paragraph_first = "Title" ∧
  title (parsePostTree doc_paragraph_first) = EmptyString ∧
  title (parsePostTree doc_paragraph_first) ≠
    first_heading1_title doc_paragraph_first.
Proof. split; [reflexivity |]. split; [reflexivity | discriminate]. Qed.

Lemma parsePostTree_title (doc : Node) :
  title (parsePostTree doc) = title_before_paragraph doc.
Proof.
  rewrite parsePostTree_fold, fold_visit_title. cbn [zero_post title nonempty].
  unfold title_before_paragraph.
  change (nonempty EmptyString) with false. cbn match.
  apply (find_text_of_containers isHeading1), isHeading1_container.
Qed.

(** C4, amended: for every document tree the extracted title is the
    concatenated literal text of the first level-1 heading with non-empty
    text among the nodes visited in pre-order, depth-first order up to the
    first paragraph; later level-1 headings are ignored, and the title is
    the empty string when there is no such heading (in particular when the
    document has no level-1 heading). *)
Theorem title_first_heading1_before_paragraph (doc : Node) :
  title (parsePostTree doc) = title_before_paragraph doc.
Proof. apply parsePostTree_title. Qed.

(** Without a level-1 heading the title is empty. *)
Lemma title_no_heading1 (doc : Node) :
  existsb isHeading1 (preorder doc) = false →
  title (parsePostTree doc) = EmptyString.
Proof.
  intros H. rewrite parsePostTree_title.
  unfold title_before_paragraph.
  destruct (find _ _) as [h |] eqn:Hf; [| done].
  apply find_some in Hf as [Hin Hh]. apply andb_true_iff in Hh as [Hh _].
  assert (Hex : existsb isHeading1 (preorder doc) = true); [| congruence].
  apply existsb_exists. exists h. split; [| done].
  clear -Hin. revert Hin. generalize (preorder doc). intros l.
  induction l as [| n l IH]; [done |]. simpl.
  destruct (isParagraph n); simpl; intuition.
Qed.

(** C5: for every document tree the extracted summary is the concatenated
    literal text (leaf literals in child order, no separators) of the first
    paragraph in pre-order, depth-first order, or the empty string when
    there is none; the walk terminates exactly when there is a paragraph,
    and it has visited the nodes up to that first paragraph and none after
    it, headings included (a heading does not stop the walk). *)
Theorem summary_first_paragraph (doc : Node) :
  summary (parsePostTree doc) = first_paragraph_text doc ∧
  snd (WalkFunc visitor doc zero_post) =
    (if existsb isParagraph (preorder doc) then Terminate else GoToNext) ∧
  parsePostTree doc = fold_left visit (upto_paragraph (preorder doc)) zero_post.
Proof.
  split; [| split].
  - rewrite parsePostTree_fold, fold_visit_summary.
    apply find_paragraph_text.
  - unfold WalkFunc. by rewrite Walk_visitor.
  - apply parsePostTree_fold.
Qed.

(** ** The date footer *)

Section Footer.
Context `{Platform}.

Lemma addDate_nil doc p :
  metadata p = None → addDate doc p = Panic nil_dereference.
Proof. intros Hm. unfold addDate. by rewrite Hm. Qed.

Lemma addDate_container k cs p m :
  metadata p = Some m →
  addDate (Container k cs) p =
  Ret (Container k
         (cs ++ [Leaf HorizontalRule EmptyString;
                 Container Paragraph
                   [Leaf Text ("Posted: " +:+ time_Format (DatePosted m) RFC1123)]])).
Proof.
  intros Hm. unfold addDate. rewrite Hm. simpl. by rewrite <- app_assoc.
Qed.

Lemma addDate_returns doc p doc' :
  addDate doc p = Ret doc' → metadata p ≠ None ∧ isContainer doc = true.
Proof.
  unfold addDate. destruct (metadata p) as [m |]; [| done].
  destruct doc as [k l | k cs]; [done |]. done.
Qed.

(** C7: with the metadata present, the date footer adds exactly two
    children at the end of the top level of the tree: a horizontal rule,
    then a paragraph whose only child is a text leaf reading [Posted: ]
    followed by the post date in the RFC 1123 layout. *)
Theorem addDate_appends_footer (k : ContainerKind) (cs : list Node)
    (p : post) (m : postMetadata) :
  metadata p = Some m →
  ∃ doc',
    addDate (Container k cs) p = Ret doc' ∧
    length (GetChildren doc') = (length (GetChildren (Container k cs)) + 2)%nat ∧
    GetChildren doc' =
      cs ++ [Leaf HorizontalRule EmptyString;
             Container Paragraph
               [Leaf Text ("Posted: " +:+ time_Format (DatePosted m) RFC1123)]] ∧
    RFC1123 = "Mon, 02 Jan 2006 15:04:05 MST".
Proof.
  intros Hm. eexists. split; [by apply addDate_container |].
  simpl. rewrite length_app. simpl. done.
Qed.
End Footer.

Lemma addDate_appends_footer_witness :
  ∃ doc',
    addDate (H := Sim.platform) doc_title_summary
      (mkPost "Title" "Summary text." "a.html"
         (Some (mkPostMetadata (mkTime 1672567200 0 Sim.utc) []))) = Ret doc' ∧
    length (GetChildren doc') = 4%nat ∧
    GetChildren doc' =
      [Container (Heading 1) [text "Title"];
       Container Paragraph [text "Summary text."];
       Leaf HorizontalRule EmptyString;
       Container Paragraph [Leaf Text "Posted: 1672567200"]] ∧
    RFC1123 = "Mon, 02 Jan 2006 15:04:05 MST".
Proof.
  apply (addDate_appends_footer (H := Sim.platform) Document
           [Container (Heading 1) [text "Title"];
            Container Paragraph [text "Summary text."]]
           (mkPost "Title" "Summary text." "a.html"
              (Some (mkPostMetadata (mkTime 1672567200 0 Sim.utc) [])))
           (mkPostMetadata (mkTime 1672567200 0 Sim.utc) [])).
  reflexivity.
Defined.

(** ** The listing of posts *)

(** The entries of the listing, one per post with its index. *)
Lemma listingLoop_entries (posts : list post) (idx : Z) (bodystr : string) :
  listingLoop posts idx bodystr =
  bodystr +:+
  fold_right String.append EmptyString
    (imap (λ i p, listingEntry (idx + Z.of_nat i) p) posts).
Proof.
  revert idx bodystr. induction posts as [| p posts IH]; intros idx bodystr.
  - simpl. by rewrite append_empty_r.
  - cbn [listingLoop imap fold_right]. rewrite IH, append_assoc.
    rewrite Z.add_0_r. do 3 f_equal.
    apply imap_ext. intros i x _. simpl. f_equal. lia.
Qed.

(** C6: the listing body is the concatenation, in the order of the
    collection, of one entry [N. [title](url)\n    - summary\n] per post,
    [N] its zero-based index; and the body of the collection of the two
    posts A and B is the text the specification gives. *)
Theorem listingBody_entries :
  (∀ posts : list post,
     listingBody posts =
     fold_right String.append EmptyString
       (imap (λ i p,
                itoa (Z.of_nat i) +:+ ". [" +:+ title p +:+ "](" +:+ url p +:+
                ")" +:+ nl +:+ "    - " +:+ summary p +:+ nl) posts)) ∧
  listingBody [mkPost "A" "sa" "a.html" None; mkPost "B" "sb" "b.html" None] =
    "0. [A](a.html)" +:+ nl +:+ "    - sa" +:+ nl +:+
    "1. [B](b.html)" +:+ nl +:+ "    - sb" +:+ nl.
Proof.
  split; [| reflexivity].
  intros posts. unfold listingBody. rewrite listingLoop_entries.
  change (EmptyString +:+ ?s) with s. f_equal.
Qed.

(** ** Paths *)

Lemma chars_app (a b : string) : chars (a +:+ b) = chars a ++ chars b.
Proof.
  induction a as [| c a IH]; [done |].
  change (c :: chars (a +:+ b) = c :: (chars a ++ chars b)). by rewrite IH.
Qed.

Lemma str_chars (s : string) : str (chars s) = s.
Proof. apply string_of_list_ascii_of_string. Qed.

Lemma has_prefix_app (p s : list ascii) : has_prefix (p ++ s) p = true.
Proof.
  induction p as [| c p IH]; [by destruct s |].
  cbn [app has_prefix]. rewrite Ascii.eqb_refl. exact IH.
Qed.

(** Stripping a prefix that is there leaves the rest. *)
Lemma TrimPrefix_app (p s : string) : TrimPrefix (p +:+ s) p = s.
Proof.
  unfold TrimPrefix, HasPrefix. rewrite chars_app, has_prefix_app.
  by rewrite drop_app_length, str_chars.
Qed.

(** The URL of a post under the destination root is its path from there. *)
Lemma postURLOf_under (destpath u : string) :
  postURLOf destpath (destpath +:+ "/" +:+ u) = u.
Proof. unfold postURLOf. by rewrite !TrimPrefix_app. Qed.

Lemma chars_str (l : list ascii) : chars (str l) = l.
Proof. apply list_ascii_of_string_of_list_ascii. Qed.

Lemma str_app (a b : list ascii) : str (a ++ b) = str a +:+ str b.
Proof.
  induction a as [| c a IH]; [done |].
  change (String c (str (a ++ b)) = String c (str a +:+ str b)). by rewrite IH.
Qed.

(** The scan of [Ext] returns an end of the path. *)
Lemma ext_scan_suffix (r acc : list ascii) :
  ∃ pre, rev r ++ acc = pre ++ ext_scan r acc.
Proof.
  revert acc. induction r as [| c r IH]; intros acc.
  - exists acc. simpl. by rewrite app_nil_r.
  - cbn [ext_scan rev]. rewrite <- app_assoc. cbn [app].
    destruct (Ascii.eqb c slash).
    + exists (rev r ++ c :: acc). by rewrite app_nil_r.
    + destruct (Ascii.eqb c dot); [by exists (rev r) | apply IH].
Qed.

(** Stripping a suffix that is there leaves the rest. *)
Lemma TrimSuffix_app (s e : list ascii) : TrimSuffix (str (s ++ e)) (str e) = str s.
Proof.
  unfold TrimSuffix, HasSuffix. rewrite !chars_str, rev_app_distr, has_prefix_app.
  rewrite length_app, Nat.add_sub. by rewrite take_app_length.
Qed.

(** The extension is the end of the path that [TrimSuffix] removes. *)
Lemma TrimSuffix_Ext (path : string) :
  TrimSuffix path (Ext path) +:+ Ext path = path.
Proof.
  unfold Ext. destruct (ext_scan_suffix (rev (chars path)) []) as [pre Hpre].
  rewrite rev_involutive, app_nil_r in Hpre.
  rewrite <- (str_chars path) at 1. rewrite Hpre at 1.
  rewrite TrimSuffix_app, <- str_app, <- Hpre. apply str_chars.
Qed.

(** ** The pipeline *)

Tactic Notation "unfold_M" :=
  unfold bind, ret, print, eprint, read_fs, update_fs, lift, panic, os_Exit.
Tactic Notation "unfold_M" "in" hyp(H) :=
  unfold bind, ret, print, eprint, read_fs, update_fs, lift, panic, os_Exit in H.

Section PipelineFacts.
Context `{Platform}.

Lemma parseMD_pure (md : string) (w : World) :
  parseMD md w =
  (w, Ret (fst (Parser_Parse
                  (parser_NewWithExtensions
                     (Z.lor parser_CommonExtensions parser_AutoHeadingIDs)) md))).
Proof. reflexivity. Qed.

Lemma parsePost_pure (md : string) (w : World) :
  parsePost md w =
  (w, Ret (parsePostTree
             (fst (Parser_Parse
                     (parser_NewWithExtensions
                        (Z.lor parser_CommonExtensions parser_AutoHeadingIDs)) md)))).
Proof. reflexivity. Qed.

(** A missing metadata file is no error: no metadata, no error. *)
Lemma readPostMetadata_missing (fname : string) (w : World) (e : error) :
  os_Stat (metadataPathOf fname) (fs w) = Some e →
  IsNotExist e = true →
  readPostMetadata fname w = (w, Ret (None, None)).
Proof.
  intros Hs He. unfold readPostMetadata. unfold_M. simpl. by rewrite Hs, He.
Qed.

(** For a post without a metadata file the post part of the loop body
    panics in [addDate]. *)
Lemma postPart_missing_metadata destpath outpath fname pagemd doc ps w e :
  os_Stat (metadataPathOf fname) (fs w) = Some e →
  IsNotExist e = true →
  postPart destpath outpath fname pagemd doc ps w = (w, Panic nil_dereference).
Proof.
  intros Hs He. unfold postPart. unfold bind at 1. rewrite parsePost_pure.
  unfold bind at 1. rewrite (readPostMetadata_missing _ _ _ Hs He).
  unfold bind, lift. by rewrite addDate_nil.
Qed.

Lemma renderPage_missing_metadata srcpath destpath templateFile postre idx
    fname st w pagemd e :
  os_ReadFile fname (fs w) = inl pagemd →
  MatchString postre fname = true →
  os_Stat (metadataPathOf fname) (fs w) = Some e →
  IsNotExist e = true →
  ∃ w', renderPage srcpath destpath templateFile postre idx fname st w =
        (w', Panic nil_dereference) ∧ fs w' = fs w.
Proof.
  intros Hr Hm Hs He. unfold renderPage.
  unfold bind at 1. unfold print at 1.
  set (w1 := mkWorld (fs w) _ (stderr w)).
  unfold bind at 1. unfold read_fs at 1. cbn [fs w1]. rewrite Hr.
  unfold bind at 1. rewrite parseMD_pure.
  unfold bind at 1. rewrite Hm.
  rewrite (postPart_missing_metadata _ _ _ _ _ _ w1 e Hs He).
  by exists w1.
Qed.

(** C2: [addDate] panics on a nil pointer whenever the post has no
    metadata, and returns only when it has; the loop body of
    [renderPages] calls it for every file that matches the post pattern,
    also when [readPostMetadata] found no metadata file, so any iteration
    on such a file panics, and so does [renderPages] itself when it is the
    first file found. *)
Theorem nil_metadata_panic_reachable :
  (∀ doc p, metadata p = None → addDate doc p = Panic nil_dereference) ∧
  (∀ doc p doc', addDate doc p = Ret doc' → metadata p ≠ None) ∧
  (∀ srcpath destpath templateFile postre idx fname st w pagemd e,
     os_ReadFile fname (fs w) = inl pagemd →
     MatchString postre fname = true →
     os_Stat (metadataPathOf fname) (fs w) = Some e →
     IsNotExist e = true →
     ∃ w', renderPage srcpath destpath templateFile postre idx fname st w =
           (w', Panic nil_dereference)) ∧
  (∀ conf w w1 fname rest postre pagemd e,
     collectMarkdownFiles (SourcePath conf) w = (w1, Ret (inl (fname :: rest))) →
     regexp_Compile (PostPattern conf) = inl postre →
     os_ReadFile fname (fs w1) = inl pagemd →
     MatchString postre fname = true →
     os_Stat (metadataPathOf fname) (fs w1) = Some e →
     IsNotExist e = true →
     ∃ w', renderPages conf w = (w', Panic nil_dereference)).
Proof.
  split; [apply addDate_nil |]. split; [| split].
  - intros doc p doc' Hd. by apply addDate_returns in Hd as [? _].
  - intros srcpath destpath templateFile postre idx fname st w pagemd e
      Hr Hm Hs He.
    destruct (renderPage_missing_metadata srcpath destpath templateFile
                postre idx fname st w pagemd e Hr Hm Hs He) as [w' [Hw' _]].
    by exists w'.
  - intros conf w w1 fname rest postre pagemd e Hc Hre Hr Hm Hs He.
    unfold renderPages. unfold bind at 1. rewrite Hc.
    unfold bind at 1. unfold print at 1.
    set (w2 := mkWorld (fs w1) _ (stderr w1)).
    rewrite Hre. unfold bind at 1. cbn [pageLoop]. unfold bind at 1.
    match goal with
    | |- context [renderPage ?a ?b ?c ?d ?i ?f ?s w2] =>
        destruct (renderPage_missing_metadata a b c d i f s w2 pagemd e
                    Hr Hm Hs He) as [w' [Hw' _]]
    end.
    rewrite Hw'. by exists w'.
Qed.
End PipelineFacts.

Lemma nil_metadata_panic_reachable_witness :
  ∃ w', renderPages Sim.conf Sim.world_post_no_metadata =
        (w', Panic nil_dereference).
Proof.
  apply (proj2 (proj2 (proj2 (nil_metadata_panic_reachable (H := Sim.platform))))
           Sim.conf Sim.world_post_no_metadata Sim.world_post_no_metadata
           "pages-md/20230101-hello.md" [] "[0-9]{8}-.*" "Hello"
           (Sim.not_exist "stat" "pages-md/20230101-hello.meta.json"));
    reflexivity.
Defined.


Ltac break_match_in H :=
  match type of H with
  | context [match ?x with _ => _ end] => destruct x eqn:?
  end.

Section Listing.
Context `{Platform}.

(** Without posts the listing step prints its count and does nothing
    else. *)
Lemma renderPostsPage_nil data r templateFile destpath (w : World) :
  renderPostsPage [] data r templateFile destpath w =
  (mkWorld (fs w) (stdout w ++ [":: Found 0 posts" +:+ nl]) (stderr w), Ret None).
Proof. reflexivity. Qed.

(** A page that is no post adds nothing to the posts. *)
Lemma renderPage_no_match srcpath destpath templateFile postre idx fname
    st (w w' : World) st' :
  MatchString postre fname = false →
  renderPage srcpath destpath templateFile postre idx fname st w =
    (w', Ret (inl st')) →
  st_posts st' = st_posts st.
Proof.
  intros Hm Hrun. unfold renderPage in Hrun.
  unfold bind at 1 in Hrun. unfold print at 1 in Hrun.
  unfold bind at 1 in Hrun. unfold read_fs at 1 in Hrun.
  cbn [fs] in Hrun.
  destruct (os_ReadFile fname (fs w)) as [pagemd | err]; [| done].
  unfold bind at 1 in Hrun. rewrite parseMD_pure in Hrun.
  unfold bind at 1 in Hrun. rewrite Hm in Hrun. unfold ret at 1 in Hrun.
  destruct (markdown_Render _ (st_renderer st)) as [body rd].
  unfold_M in Hrun.
  repeat (break_match_in Hrun; try discriminate Hrun);
    simplify_eq; reflexivity.
Qed.

Lemma pageLoop_no_match srcpath destpath templateFile postre pagesmd :
  Forall (λ f, MatchString postre f = false) pagesmd →
  ∀ idx st (w w' : World) st',
    pageLoop srcpath destpath templateFile postre idx pagesmd st w =
      (w', Ret (inl st')) →
    st_posts st' = st_posts st.
Proof.
  induction 1 as [| fname rest Hm _ IH]; intros idx st w w' st' Hrun.
  - by inversion Hrun.
  - cbn [pageLoop] in Hrun. unfold bind at 1 in Hrun.
    destruct (renderPage _ _ _ _ idx fname st w) as [w1 [[st1 | e] | |]] eqn:Hp;
      try discriminate Hrun.
    apply IH in Hrun. rewrite Hrun.
    by apply (renderPage_no_match _ _ _ _ _ _ _ _ _ _ Hm Hp).
Qed.

Lemma renderPages_unfold conf (w w1 : World) pagesmd postre :
  collectMarkdownFiles (SourcePath conf) w = (w1, Ret (inl pagesmd)) →
  regexp_Compile (PostPattern conf) = inl postre →
  renderPages conf w =
  match pageLoop (SourcePath conf) (DestinationPath conf)
          (PageTemplateFile conf) postre 0 pagesmd (loopInit conf pagesmd)
          (loopWorld pagesmd w1) with
  | (w2, Ret (inl st)) =>
      match renderPostsPage (st_posts st) (st_data st) (st_renderer st)
              (PageTemplateFile conf) (DestinationPath conf) w2 with
      | (w3, Ret _) =>
          (mkWorld (fs w3) (stdout w3 ++ [":: Rendering complete!" +:+ nl])
             (stderr w3), Ret None)
      | (w3, Panic msg) => (w3, Panic msg)
      | (w3, Exit code) => (w3, Exit code)
      end
  | (w2, Ret (inr err)) => (w2, Ret (Some err))
  | (w2, Panic msg) => (w2, Panic msg)
  | (w2, Exit code) => (w2, Exit code)
  end.
Proof.
  intros Hc Hre. unfold renderPages. unfold bind at 1. rewrite Hc.
  unfold bind at 1. unfold print at 1. rewrite Hre.
  unfold bind at 1. fold (loopInit conf pagesmd).
  change (mkWorld (fs w1) _ (stderr w1)) with (loopWorld pagesmd w1).
  by destruct (pageLoop _ _ _ _ _ _ _ _) as [w2 [[st | e] | |]].
Qed.

(** C9: when no file found matches the post pattern, the post collection
    is empty at the end of the loop, and the listing step leaves the file
    system as the loop left it: no [posts.html] is written. *)
Theorem no_posts_no_listing conf (w w1 : World) pagesmd postre :
  collectMarkdownFiles (SourcePath conf) w = (w1, Ret (inl pagesmd)) →
  regexp_Compile (PostPattern conf) = inl postre →
  Forall (λ f, MatchString postre f = false) pagesmd →
  let loop :=
    pageLoop (SourcePath conf) (DestinationPath conf) (PageTemplateFile conf)
      postre 0 pagesmd (loopInit conf pagesmd) (loopWorld pagesmd w1) in
  (∀ st, snd loop = Ret (inl st) → st_posts st = []) ∧
  (∀ data r (w0 : World),
     fs (fst (renderPostsPage [] data r (PageTemplateFile conf)
                (DestinationPath conf) w0)) = fs w0) ∧
  fs (fst (renderPages conf w)) = fs (fst loop).
Proof.
  intros Hc Hre Hno loop.
  assert (Hposts : ∀ st, snd loop = Ret (inl st) → st_posts st = []).
  { intros st Hst. subst loop.
    destruct (pageLoop _ _ _ _ _ _ _ _) as [w2 o] eqn:Hl. simpl in Hst. subst o.
    by apply (pageLoop_no_match _ _ _ _ _ Hno) in Hl. }
  split; [done |]. split; [done |].
  rewrite (renderPages_unfold _ _ _ _ _ Hc Hre). fold loop.
  destruct loop as [w2 [[st | e] | |]] eqn:Hl; try done.
  rewrite (Hposts st eq_refl), renderPostsPage_nil. done.
Qed.
End Listing.

Lemma no_posts_no_listing_witness :
  let loop :=
    pageLoop (H := Sim.platform) "pages-md" "html" "templates/template.html"
      "[0-9]{8}-.*" 0 ["pages-md/about.md"]
      (loopInit Sim.conf ["pages-md/about.md"])
      (loopWorld ["pages-md/about.md"] Sim.world_page) in
  (∀ st, snd loop = Ret (inl st) → st_posts st = []) ∧
  (∀ data r (w0 : World),
     fs (fst (renderPostsPage (H := Sim.platform) [] data r
                "templates/template.html" "html" w0)) = fs w0) ∧
  fs (fst (renderPages Sim.conf Sim.world_page)) = fs (fst loop).
Proof.
  apply (no_posts_no_listing (H := Sim.platform) Sim.conf Sim.world_page
           Sim.world_page ["pages-md/about.md"] "[0-9]{8}-.*").
  - reflexivity.
  - reflexivity.
  - repeat constructor.
Defined.

(** The run on the site with one page that is no post: the page is
    written, [posts.html] is not. *)
Example run_page_only :
  let r := run (H := Sim.platform) EmptyString EmptyString false Sim.world_page in
  snd r = 0 ∧
  Sim.fs_lookup "html/about.html" (fs (fst r)) = Some (Sim.RegFile "TSiteAbout.") ∧
  Sim.fs_lookup "html/posts.html" (fs (fst r)) = None.
Proof. cbv zeta. repeat split; vm_compute; reflexivity. Qed.

(** C1 fails on the code: on a site whose only post has no metadata file,
    [readPostMetadata] reports no metadata and no error, and the run then
    panics in [addDate]; the process ends with status 2 and neither the page
    of the post nor the listing is written. *)
Lemma missing_metadata_run_panics :
  let w := Sim.world_post_no_metadata in
  readPostMetadata (H := Sim.platform) "pages-md/20230101-hello.md" w =
    (w, Ret (None, None)) ∧
  snd (renderPages (H := Sim.platform) Sim.conf w) = Panic nil_dereference ∧
  snd (run EmptyString EmptyString false w) = 2 ∧
  stderr (fst (run EmptyString EmptyString false w)) =
    ["panic: " +:+ nil_dereference] ∧
  Sim.fs_lookup "html/20230101-hello.html"
    (fs (fst (run EmptyString EmptyString false w))) = None ∧
  Sim.fs_lookup "html/posts.html"
    (fs (fst (run EmptyString EmptyString false w))) = None.
Proof. cbv zeta. split; [reflexivity |]. repeat split; vm_compute; reflexivity. Qed.

(** With its metadata file the same post is rendered with the footer and
    listed. *)
Example run_post_with_metadata :
  let r := run (H := Sim.platform) EmptyString EmptyString false Sim.world_post in
  snd r = 0 ∧
  Sim.fs_lookup "html/20230101-hello.html" (fs (fst r)) =
    Some (Sim.RegFile "TSiteHelloPosted: 0.") ∧
  is_Some (Sim.fs_lookup "html/posts.html" (fs (fst r))).
Proof.
  cbv zeta. split; [vm_compute; reflexivity |].
  split; [vm_compute; reflexivity |]. vm_compute. by eexists.
Qed.

Section Dropped.
Context `{Platform}.

(** Whatever [renderPostsPage] returns, [renderPages] returns no
    error. *)
Lemma renderPages_drops_listing_error conf (w w1 w2 w3 : World) pagesmd
    postre st r :
  collectMarkdownFiles (SourcePath conf) w = (w1, Ret (inl pagesmd)) →
  regexp_Compile (PostPattern conf) = inl postre →
  pageLoop (SourcePath conf) (DestinationPath conf) (PageTemplateFile conf)
    postre 0 pagesmd (loopInit conf pagesmd) (loopWorld pagesmd w1) =
    (w2, Ret (inl st)) →
  renderPostsPage (st_posts st) (st_data st) (st_renderer st)
    (PageTemplateFile conf) (DestinationPath conf) w2 = (w3, Ret r) →
  renderPages conf w =
  (mkWorld (fs w3) (stdout w3 ++ [":: Rendering complete!" +:+ nl]) (stderr w3),
   Ret None).
Proof.
  intros Hc Hre Hl Hp. rewrite (renderPages_unfold _ _ _ _ _ Hc Hre).
  by rewrite Hl, Hp.
Qed.

(** An error of the page loop is returned. *)
Lemma renderPages_returns_page_error conf (w w1 w2 : World) pagesmd postre err :
  collectMarkdownFiles (SourcePath conf) w = (w1, Ret (inl pagesmd)) →
  regexp_Compile (PostPattern conf) = inl postre →
  pageLoop (SourcePath conf) (DestinationPath conf) (PageTemplateFile conf)
    postre 0 pagesmd (loopInit conf pagesmd) (loopWorld pagesmd w1) =
    (w2, Ret (inr err)) →
  renderPages conf w = (w2, Ret (Some err)).
Proof.
  intros Hc Hre Hl. rewrite (renderPages_unfold _ _ _ _ _ Hc Hre).
  by rewrite Hl.
Qed.

(** An error that [renderPages] returns ends the run with a message on
    standard error and status 1. *)
Lemma main_dies_on_render_error build commit conf (w w1 w2 w3 : World) err :
  loadConfig w = (w1, Ret (inl conf)) →
  createDirs conf w1 = (w2, Ret None) →
  renderPages conf w2 = (w3, Ret (Some err)) →
  run build commit false w =
  (mkWorld (fs w3) (stdout w3) (stderr w3 ++ ["error: " +:+ Error err]), 1).
Proof.
  intros Hl Hc Hr. unfold run, main. unfold bind at 1. rewrite Hl.
  unfold bind at 1. rewrite Hc. unfold bind at 1. rewrite Hr. reflexivity.
Qed.
End Dropped.

(** C3 fails on the code: on a site with one post where [html/posts.html]
    is a directory, the page loop succeeds, writing the listing fails and
    [renderPostsPage] returns the error, but [renderPages] returns none: the
    run goes on, prints nothing on standard error and ends with status 0. *)
Lemma listing_error_dropped :
  let w := Sim.world_listing_blocked in
  let loop :=
    pageLoop (H := Sim.platform) "pages-md" "html" "templates/template.html"
      "[0-9]{8}-.*" 0 ["pages-md/20230101-hello.md"]
      (loopInit Sim.conf ["pages-md/20230101-hello.md"])
      (loopWorld ["pages-md/20230101-hello.md"] w) in
  let p :=
    mkPost EmptyString "Hello" "20230101-hello.html"
      (Some (mkPostMetadata (mkTime 0 0 Sim.utc) [])) in
  let st :=
    mkLoopState (H := Sim.platform) (mkTemplateData "Site" "HelloPosted: 0" ".")
      tt [p] ["html/20230101-hello.html"] in
  let err :=
    wrap ("writing posts page " +:+ @Quote Sim.platform "html/posts.html" +:+ ": ")
      (Sim.is_a_directory "open" "html/posts.html") in
  snd loop = Ret (inl st) ∧
  snd (renderPostsPage [p] (st_data st) (st_renderer st)
         "templates/template.html" "html" (fst loop)) = Ret (Some err) ∧
  snd (renderPages (H := Sim.platform) Sim.conf w) = Ret None ∧
  snd (run EmptyString EmptyString false w) = 0 ∧
  stderr (fst (run EmptyString EmptyString false w)) = [] ∧
  Sim.fs_lookup "html/posts.html"
    (fs (fst (run EmptyString EmptyString false w))) = Some Sim.Dir.
Proof.
  cbv zeta. split; [reflexivity |]. repeat split; vm_compute; reflexivity.
Qed.

(** * Further properties of the program *)

(** ** Literal text and the walk *)

(** The literals of a container are those of the first part of its
    children followed by those of the rest, whatever the kinds of the
    containers; and a container around the children adds nothing: markup
    such as emphasis or a link is transparent. *)
Theorem childLiterals_compose (k k1 k2 k' : ContainerKind) (cs1 cs2 : list Node) :
  childLiterals (Container k (cs1 ++ cs2)) =
    childLiterals (Container k1 cs1) +:+ childLiterals (Container k2 cs2) ∧
  childLiterals (Container k (cs1 ++ [Container k' cs2])) =
    childLiterals (Container k (cs1 ++ cs2)).
Proof.
  rewrite !childLiterals_literal_text. unfold literal_text. cbn [literals].
  rewrite !flat_map_app, !concat_literals_app. cbn [flat_map literals].
  by rewrite app_nil_r.
Qed.

Lemma upto_paragraph_preorder_paragraph (cs : list Node) (l : list Node) :
  upto_paragraph (preorder (Container Paragraph cs) ++ l) =
  [Container Paragraph cs].
Proof. reflexivity. Qed.

(** What follows the first paragraph among the children of the document
    never reaches the title or the summary: a post parses as if it ended
    with that paragraph. *)
Theorem parsePostTree_after_paragraph (pre rest cs : list Node) :
  parsePostTree (Container Document (pre ++ Container Paragraph cs :: rest)) =
  parsePostTree (Container Document (pre ++ [Container Paragraph cs])).
Proof.
  assert (Hroot : ∀ cs0,
    fold_left visit (upto_paragraph (preorder (Container Document cs0))) zero_post =
    fold_left visit (upto_paragraph (flat_map preorder cs0)) zero_post)
    by reflexivity.
  rewrite !parsePostTree_fold, !Hroot.
  rewrite !flat_map_app. cbn [flat_map].
  rewrite !(upto_paragraph_app (flat_map preorder pre)).
  by rewrite !upto_paragraph_preorder_paragraph.
Qed.

Lemma visit_url_metadata (p : post) (n : Node) :
  url (visit p n) = url p ∧ metadata (visit p n) = metadata p.
Proof.
  destruct n as [k l | k cs]; [done |]. destruct k; try done.
  rewrite visit_heading. by destruct (_ && _).
Qed.

Lemma fold_visit_url_metadata (l : list Node) (p : post) :
  url (fold_left visit l p) = url p ∧
  metadata (fold_left visit l p) = metadata p.
Proof.
  revert p. induction l as [| n l IH]; intros p; [done |]. cbn [fold_left].
  destruct (IH (visit p n)) as [-> ->]. apply visit_url_metadata.
Qed.

(** The walk fills the title and the summary only: for every tree the URL
    of the parsed post is empty and its metadata nil, left to the caller. *)
Theorem parsePostTree_url_metadata (doc : Node) :
  url (parsePostTree doc) = EmptyString ∧ metadata (parsePostTree doc) = None.
Proof. rewrite parsePostTree_fold. apply fold_visit_url_metadata. Qed.

(** ** The footer and the extraction *)

Section FooterThenParse.
Context `{Platform}.

(** Extraction after the footer is added: when the document has a
  paragraph the title and the summary are what they were, and when it has
  none the paragraph of the footer is taken for the summary. Extraction
  gives the fields of the source only on a tree without the footer. *)
Theorem addDate_then_parsePostTree (cs : list Node) (p : post) (m : postMetadata) :
metadata p = Some m →
∃ doc',
  addDate (Container Document cs) p = Ret doc' ∧
  parsePostTree doc' =
    if existsb isParagraph (flat_map preorder cs)
    then parsePostTree (Container Document cs)
    else set_summary (parsePostTree (Container Document cs))
           ("Posted: " +:+ time_Format (DatePosted m) RFC1123).
Proof.
intros Hm. eexists. split; [by apply addDate_container |].
assert (Hroot : ∀ cs0,
  fold_left visit (upto_paragraph (preorder (Container Document cs0))) zero_post =
  fold_left visit (upto_paragraph (flat_map preorder cs0)) zero_post)
  by reflexivity.
rewrite !parsePostTree_fold, !Hroot, flat_map_app, upto_paragraph_app.
destruct (existsb isParagraph (flat_map preorder cs)) eqn:Hex; [done |].
rewrite (upto_paragraph_none _ Hex), fold_left_app. reflexivity.
Qed.
End FooterThenParse.

Lemma addDate_then_parsePostTree_witness :
  ∃ doc',
    addDate (H := Sim.platform) (Container Document [Container (Heading 1) [text "T"]])
      (mkPost "T" EmptyString "t.html"
         (Some (mkPostMetadata (mkTime 7 0 Sim.utc) []))) = Ret doc' ∧
    parsePostTree doc' = mkPost "T" "Posted: 7" EmptyString None.
Proof.
  apply (addDate_then_parsePostTree (H := Sim.platform)
           [Container (Heading 1) [text "T"]]
           (mkPost "T" EmptyString "t.html"
              (Some (mkPostMetadata (mkTime 7 0 Sim.utc) [])))
           (mkPostMetadata (mkTime 7 0 Sim.utc) [])).
  reflexivity.
Defined.

(** ** Paths of pages *)

Lemma Ext_md (stem : string) : Ext (stem +:+ ".md") = ".md".
Proof.
  unfold Ext. rewrite chars_app, rev_app_distr. reflexivity.
Qed.

Lemma TrimSuffix_append (s e : string) : TrimSuffix (s +:+ e) e = s.
Proof.
  rewrite <- (str_chars s) at 1. rewrite <- (str_chars e) at 1 2.
  rewrite <- str_app, TrimSuffix_app. apply str_chars.
Qed.

(** For every Markdown file [stem.md] the metadata is looked for in
    [stem.meta.json], and the page of [srcpath ++ rel ++ ".md"] is written
    to [rel ++ ".html"] joined under the destination root. *)
Theorem paths_of_markdown_file (srcpath destpath rel stem : string) :
  metadataPathOf (stem +:+ ".md") = stem +:+ ".meta.json" ∧
  outputPath srcpath destpath (srcpath +:+ rel +:+ ".md") =
    Join destpath (rel +:+ ".html").
Proof.
  unfold metadataPathOf, outputPath.
  by rewrite TrimPrefix_app, !Ext_md, !TrimSuffix_append.
Qed.

Lemma split_slash_no_slash (h cur : list ascii) :
  Forall (λ c, Ascii.eqb c slash = false) h →
  split_slash h cur = [rev cur ++ h].
Proof.
  intros Hh. revert cur. induction Hh as [| c h Hc _ IH]; intros cur.
  - simpl. by rewrite app_nil_r.
  - cbn [split_slash]. rewrite Hc, IH.
    change (rev (c :: cur)) with (rev cur ++ [c]). by rewrite <- app_assoc.
Qed.

(** Text without a separator at the end of a path extends its last
    element. *)
Lemma split_slash_extend (l h cur : list ascii) :
  Forall (λ c, Ascii.eqb c slash = false) h →
  ∃ init last,
    split_slash l cur = init ++ [last] ∧
    split_slash (l ++ h) cur = init ++ [last ++ h].
Proof.
  intros Hh. revert cur. induction l as [| c l IH]; intros cur.
  - exists [], (rev cur). split; [done |]. by apply split_slash_no_slash.
  - cbn [app split_slash]. destruct (Ascii.eqb c slash).
    + destruct (IH []) as (init & last & H1 & H2).
      exists (rev cur :: init), last. by rewrite H1, H2.
    + apply IH.
Qed.

Lemma clean_elems_app (rooted : bool) (es1 es2 kept : list (list ascii)) :
  clean_elems rooted (es1 ++ es2) kept =
  clean_elems rooted es2 (clean_elems rooted es1 kept).
Proof.
  revert kept. induction es1 as [| e es1 IH]; intros kept; [done |].
  cbn [app clean_elems].
  destruct (_ || _); [apply IH |].
  destruct (is_dotdot e); [| apply IH].
  destruct kept as [| k kept']; [destruct rooted; apply IH |].
  destruct (is_dotdot k); apply IH.
Qed.

Lemma join_slash_last (xs : list (list ascii)) (e : list ascii) :
  ∃ pre, join_slash (xs ++ [e]) = pre ++ e.
Proof.
  induction xs as [| x xs [pre IH]]; [by exists [] |].
  exists (x ++ slash :: pre). cbn [app join_slash]. rewrite IH.
  destruct (xs ++ [e]) eqn:E; [by destruct xs |]. by rewrite <- app_assoc.
Qed.

(** [Clean] keeps a final element that ends in [.html]. *)
Lemma Clean_html (l : list ascii) :
  ∃ x, Clean (str (l ++ chars ".html")) = str (x ++ chars ".html").
Proof.
  unfold Clean. rewrite chars_str.
  set (rooted := match l ++ chars ".html" with
                 | c :: _ => Ascii.eqb c slash
                 | [] => false
                 end).
  destruct (split_slash_extend l (chars ".html") []) as (init & last & _ & ->).
  { repeat constructor. }
  rewrite clean_elems_app.
  assert (Hkeep : ∀ kept,
    clean_elems rooted [last ++ chars ".html"] kept =
    (last ++ chars ".html") :: kept).
  { intros kept. by destruct last as [| a [| b [| c last]]]. }
  rewrite Hkeep. cbn [rev].
  destruct (join_slash_last (rev (clean_elems rooted init [])) (last ++ chars ".html"))
    as [pre ->].
  destruct rooted.
  - exists (slash :: pre ++ last). cbn [app]. by rewrite <- app_assoc.
  - destruct (pre ++ last ++ chars ".html") as [| a out] eqn:E.
    + apply app_eq_nil in E as [_ E]. by apply app_eq_nil in E as [_ E].
    + exists (pre ++ last). by rewrite <- app_assoc, E.
Qed.

Lemma Ext_html (x : list ascii) : Ext (str (x ++ chars ".html")) = ".html".
Proof. unfold Ext. rewrite chars_str, rev_app_distr. reflexivity. Qed.

(** Every page is written to a file with the extension [.html], whatever
    the source root, the destination root and the name of the source
    file. *)
Theorem outputPath_html (srcpath destpath fname : string) :
  Ext (outputPath srcpath destpath fname) = ".html".
Proof.
  unfold outputPath.
  set (stem := TrimSuffix _ _). unfold Join.
  destruct (String.eqb destpath EmptyString).
  - assert (String.eqb (stem +:+ ".html") EmptyString = false) as ->
      by (by destruct stem).
    rewrite <- (str_chars (stem +:+ ".html")), chars_app.
    destruct (Clean_html (chars stem)) as [x ->]. apply Ext_html.
  - rewrite <- (str_chars (destpath +:+ "/" +:+ stem +:+ ".html")).
    rewrite !chars_app, !app_assoc.
    destruct (Clean_html ((chars destpath ++ chars "/") ++ chars stem)) as [x ->].
    apply Ext_html.
Qed.

(** ** The derivation of the destination path and of the URL *)

Lemma split_slash_prefix (h l cur : list ascii) :
  Forall (λ c, Ascii.eqb c slash = false) h →
  split_slash (h ++ l) cur = split_slash l (rev h ++ cur).
Proof.
  intros Hh. revert cur. induction Hh as [| c h Hc _ IH]; intros cur; [done |].
  cbn [app split_slash]. rewrite Hc, IH.
  change (rev (c :: h)) with (rev h ++ [c]). by rewrite <- app_assoc.
Qed.

(** The elements of a path written from elements without a separator are
    those elements. *)
Lemma split_slash_join (e : list ascii) (es : list (list ascii)) (cur : list ascii) :
  Forall (Forall (λ c, Ascii.eqb c slash = false)) (e :: es) →
  split_slash (join_slash (e :: es)) cur = (rev cur ++ e) :: es.
Proof.
  revert e cur. induction es as [| e' es IH]; intros e cur Hall.
  - apply split_slash_no_slash. by inversion Hall.
  - inversion Hall as [| ? ? He Hes]; subst.
    change (join_slash (e :: e' :: es)) with (e ++ slash :: join_slash (e' :: es)).
    rewrite (split_slash_prefix _ _ _ He). cbn [split_slash].
    rewrite Ascii.eqb_refl, (IH _ _ Hes).
    by rewrite rev_app_distr, rev_involutive.
Qed.

(** Without [..], [Clean] keeps the elements that are not empty and not
    [.], in their order. *)
Lemma clean_elems_no_dotdot (rooted : bool) (es kept : list (list ascii)) :
  Forall (λ e, is_dotdot e = false) es →
  clean_elems rooted es kept = rev (List.filter kept_elem es) ++ kept.
Proof.
  intros Hes. revert kept. induction Hes as [| e es He _ IH]; intros kept; [done |].
  cbn [clean_elems List.filter]. unfold kept_elem at 1.
  destruct (_ || _); cbn [negb]; [apply IH |].
  rewrite He, IH. cbn [rev]. by rewrite <- app_assoc.
Qed.

Lemma join_slash_app (xs ys : list (list ascii)) :
  xs ≠ [] → ys ≠ [] →
  join_slash (xs ++ ys) = join_slash xs ++ slash :: join_slash ys.
Proof.
  intros Hx Hy. induction xs as [| x xs IH]; [done |].
  destruct xs as [| x' xs].
  - cbn [app]. destruct ys; done.
  - change (join_slash ((x :: x' :: xs) ++ ys))
      with (x ++ slash :: join_slash ((x' :: xs) ++ ys)).
    rewrite IH by done.
    change (join_slash (x :: x' :: xs)) with (x ++ slash :: join_slash (x' :: xs)).
    by rewrite <- app_assoc.
Qed.

Lemma join_slash_cons (r : list ascii) (ys : list (list ascii)) :
  ys ≠ [] → join_slash (r :: ys) = r ++ slash :: join_slash ys.
Proof. by destruct ys. Qed.

Lemma join_slash_extend (rs : list (list ascii)) (n x : list ascii) :
  join_slash (rs ++ [n ++ x]) = join_slash (rs ++ [n]) ++ x.
Proof.
  induction rs as [| r rs IH]; [done |]. cbn [app].
  rewrite !join_slash_cons by (by destruct rs).
  by rewrite IH, <- app_assoc.
Qed.

Lemma pathOf_app (xs ys : list (list ascii)) :
  xs ≠ [] → ys ≠ [] →
  pathOf (xs ++ ys) = pathOf xs +:+ "/" +:+ pathOf ys.
Proof.
  intros Hx Hy. unfold pathOf. rewrite join_slash_app by done.
  by rewrite str_app.
Qed.

(** [Clean] on a relative path written from elements without [..]. *)
Lemma Clean_elements (c : ascii) (e0 : list ascii) (els : list (list ascii)) :
  Forall (Forall (λ c, Ascii.eqb c slash = false)) ((c :: e0) :: els) →
  Forall (λ e, is_dotdot e = false) ((c :: e0) :: els) →
  List.filter kept_elem ((c :: e0) :: els) ≠ [] →
  Clean (pathOf ((c :: e0) :: els)) =
  pathOf (List.filter kept_elem ((c :: e0) :: els)).
Proof.
  intros Hns Hdd Hne. unfold Clean, pathOf. rewrite chars_str.
  rewrite (split_slash_join _ _ _ Hns), (clean_elems_no_dotdot _ _ _ Hdd).
  rewrite app_nil_r, rev_involutive.
  assert (Hroot : match join_slash ((c :: e0) :: els) with
                  | c' :: _ => Ascii.eqb c' slash
                  | [] => false
                  end = false).
  { inversion Hns as [| ? ? Hc _]; subst. inversion Hc; subst.
    by destruct els. }
  cbn [rev app] in *. rewrite Hroot.
  destruct (List.filter kept_elem ((c :: e0) :: els)) as [| k ks] eqn:F; [done |].
  assert (Hk : kept_elem k = true).
  { apply (proj1 (filter_In kept_elem k ((c :: e0) :: els))).
    rewrite F. by left. }
  destruct k as [| a k]; [done |].
  by destruct ks.
Qed.

Lemma ext_scan_pass (e r acc : list ascii) :
  Forall (λ c, Ascii.eqb c slash = false ∧ Ascii.eqb c dot = false) e →
  ext_scan (rev e ++ r) acc = ext_scan r (e ++ acc).
Proof.
  intros He. revert r. induction He as [| c e [Hs Hd] _ IH]; intros r; [done |].
  change (rev (c :: e)) with (rev e ++ [c]). rewrite <- app_assoc, IH.
  cbn [app ext_scan]. by rewrite Hs, Hd.
Qed.

(** The extension of a path that ends with a dot and a text without dot
    or separator is that dot and text. *)
Lemma Ext_final (x ext : list ascii) :
  Forall (λ c, Ascii.eqb c slash = false ∧ Ascii.eqb c dot = false) ext →
  Ext (str (x ++ dot :: ext)) = str (dot :: ext).
Proof.
  intros He. unfold Ext. rewrite chars_str, rev_app_distr.
  change (rev (dot :: ext)) with (rev ext ++ [dot]). rewrite <- app_assoc.
  rewrite (ext_scan_pass _ _ _ He). cbn [app ext_scan].
  by rewrite app_nil_r.
Qed.

Lemma filter_all {A : Type} (f : A → bool) (l : list A) :
  forallb f l = true → List.filter f l = l.
Proof.
  induction l as [| a l IH]; [done |]. cbn [forallb List.filter].
  intros [Ha Hl]%andb_true_iff. by rewrite Ha, IH.
Qed.

Lemma html_elem_kept (name : list ascii) :
  kept_elem (name ++ chars ".html") = true ∧
  is_dotdot (name ++ chars ".html") = false.
Proof. by destruct name as [| a [| b [| c name]]]. Qed.

(** C8: for a source file under the source root, written from elements
    (an empty one for a doubled, leading or trailing separator) that end
    with [name.ext], and a relative destination root written the same way,
    the destination path is the destination root followed by the elements
    of the file below the source root, empty and [.] elements dropped, one
    separator between any two, with the final extension replaced by
    [.html]; when the destination root is written cleanly, the URL of the
    post is the destination path without that root and without a leading
    separator; and [pages-md/blog/20230101-hello.md] goes to
    [html/blog/20230101-hello.html], with the URL
    [blog/20230101-hello.html]. *)
Theorem path_derivation (srcpath : string) (c : ascii) (d0 : list ascii)
    (ds rs : list (list ascii)) (name ext : list ascii) :
  let root := (c :: d0) :: ds in
  Forall (Forall (λ c, Ascii.eqb c slash = false)) (root ++ rs ++ [name]) →
  Forall (λ e, is_dotdot e = false) (root ++ rs) →
  Forall (λ c, Ascii.eqb c slash = false ∧ Ascii.eqb c dot = false) ext →
  let fname := srcpath +:+ pathOf (rs ++ [name ++ dot :: ext]) in
  let outpath := outputPath srcpath (pathOf root) fname in
  outpath =
    pathOf (List.filter kept_elem (root ++ rs) ++ [name ++ chars ".html"]) ∧
  (forallb kept_elem root = true →
   postURLOf (pathOf root) outpath =
     pathOf (List.filter kept_elem rs ++ [name ++ chars ".html"])) ∧
  outputPath "pages-md" "html" "pages-md/blog/20230101-hello.md" =
    "html/blog/20230101-hello.html" ∧
  postURLOf "html"
    (outputPath "pages-md" "html" "pages-md/blog/20230101-hello.md") =
    "blog/20230101-hello.html".
Proof.
  intros root Hns Hdd Hext fname outpath.
  destruct (html_elem_kept name) as [Hkept Hnodd].
  assert (Hout : outpath =
    pathOf (List.filter kept_elem (root ++ rs) ++ [name ++ chars ".html"])).
  { unfold outpath, fname, outputPath. cbv zeta. rewrite TrimPrefix_app.
    replace (pathOf (rs ++ [name ++ dot :: ext]))
      with (str (join_slash (rs ++ [name]) ++ dot :: ext))
      by (unfold pathOf; by rewrite join_slash_extend).
    rewrite (Ext_final _ _ Hext), TrimSuffix_app.
    change ".html" with (str (chars ".html")).
    rewrite <- str_app, <- join_slash_extend. fold (pathOf (rs ++ [name ++ chars ".html"])).
    unfold Join.
    assert (String.eqb (pathOf root) EmptyString = false) as ->
      by (unfold root; by destruct ds).
    rewrite <- pathOf_app by (by destruct rs).
    change (root ++ rs ++ [name ++ chars ".html"])
      with ((c :: d0) :: (ds ++ rs ++ [name ++ chars ".html"])).
    rewrite Clean_elements.
    - change ((c :: d0) :: (ds ++ rs ++ [name ++ chars ".html"]))
        with (root ++ rs ++ [name ++ chars ".html"]).
      rewrite app_assoc, List.filter_app. cbn [List.filter]. by rewrite Hkept.
    - change ((c :: d0) :: (ds ++ rs ++ [name ++ chars ".html"]))
        with (root ++ rs ++ [name ++ chars ".html"]).
      rewrite app_assoc in Hns |- *.
      apply Forall_app in Hns as [Hns1 Hns2]. apply Forall_app. split; [done |].
      inversion Hns2; subst. constructor; [| done].
      apply Forall_app. split; [done |]. repeat constructor.
    - change ((c :: d0) :: (ds ++ rs ++ [name ++ chars ".html"]))
        with (root ++ rs ++ [name ++ chars ".html"]).
      rewrite app_assoc. apply Forall_app. split; [done |]. by constructor.
    - change ((c :: d0) :: (ds ++ rs ++ [name ++ chars ".html"]))
        with (root ++ rs ++ [name ++ chars ".html"]).
      rewrite app_assoc, List.filter_app. cbn [List.filter]. rewrite Hkept.
      by destruct (List.filter kept_elem (root ++ rs)). }
  split; [done |]. split; [| split; reflexivity].
  intros Hroot. rewrite Hout, List.filter_app, (filter_all _ _ Hroot), <- app_assoc.
  rewrite pathOf_app; [apply postURLOf_under | done |].
  by destruct (List.filter kept_elem rs).
Qed.

Lemma path_derivation_witness :
  outputPath "pages-md/" "html/" "pages-md/blog//./20230101-hello.md" =
    "html/blog/20230101-hello.html" ∧
  outputPath "pages-md" "html" "pages-md/blog/20230101-hello.md" =
    "html/blog/20230101-hello.html" ∧
  postURLOf "html"
    (outputPath "pages-md" "html" "pages-md/blog/20230101-hello.md") =
    "blog/20230101-hello.html".
Proof.
  split.
  - apply (proj1 (path_derivation "pages-md/" (ascii_of_nat 104) (chars "tml")
                    [[]] [chars "blog"; []; chars "."] (chars "20230101-hello")
                    (chars "md") ltac:(repeat constructor)
                    ltac:(repeat constructor) ltac:(repeat constructor))).
  - pose proof (path_derivation "pages-md" (ascii_of_nat 104) (chars "tml")
                  [] [[]; chars "blog"] (chars "20230101-hello")
                  (chars "md") ltac:(repeat constructor)
                  ltac:(repeat constructor) ltac:(repeat constructor))
      as (H1 & H2 & _).
    split; [exact H1 | exact (H2 eq_refl)].
Defined.

(** ** The loop over the pages *)

Section Pages.
Context `{Platform}.

(** The tree that [parseMD] returns for a source. *)
Lemma parseMD_tree (md : string) (w : World) :
∃ doc, parseMD md w = (w, Ret doc) ∧ parsePost md w = (w, Ret (parsePostTree doc)).
Proof. by eexists. Qed.

Lemma readPostMetadata_cases (fname : string) (w : World) :
∃ w' pm err,
  readPostMetadata fname w = (w', Ret (pm, err)) ∧
  fs w' = fs w ∧ stdout w' = stdout w ∧
  (pm = None ∨ err = None).
Proof.
unfold readPostMetadata. unfold_M.
destruct (match os_Stat _ _ with Some e => IsNotExist e | None => false end).
- exists w, None, None. auto.
- destruct (os_Open _ _) as [fp | e]; [| exists w; eexists _, _; auto].
  destruct (File_Close fp);
    destruct (json_Decode fp); eexists _, _, _; simpl; auto.
Qed.

(** [readPostMetadata] never panics and never exits; it leaves the file
  system and standard output as they are, and it never returns both
  metadata and an error. *)
Theorem readPostMetadata_frame (fname : string) (w : World) :
∃ w' pm err,
  readPostMetadata fname w = (w', Ret (pm, err)) ∧
  fs w' = fs w ∧ stdout w' = stdout w ∧
  (pm = None ∨ err = None).
Proof. apply readPostMetadata_cases. Qed.

(** When the post part of the loop body returns a post, the post is the
  parsed one with its URL and with metadata that are not nil, added at the
  end of the posts, the document is the parsed tree with the footer, and
  the file system is untouched. *)
Lemma postPart_success destpath outpath fname pagemd doc ps (w w' : World)
  doc' ps' :
postPart destpath outpath fname pagemd doc ps w = (w', Ret (inl (doc', ps'))) →
∃ tree m,
  parseMD pagemd w = (w, Ret tree) ∧
  ps' = ps ++ [mkPost (title (parsePostTree tree)) (summary (parsePostTree tree))
                 (postURLOf destpath outpath) (Some m)] ∧
  addDate doc (mkPost (title (parsePostTree tree)) (summary (parsePostTree tree))
                 (postURLOf destpath outpath) (Some m)) = Ret doc' ∧
  fs w' = fs w.
Proof.
intros Hrun. unfold postPart in Hrun. unfold bind at 1 in Hrun.
rewrite parsePost_pure in Hrun. unfold bind at 1 in Hrun.
destruct (readPostMetadata_cases fname w) as (w1 & pm & err & Hr & Hfs & _ & _).
rewrite Hr in Hrun. destruct err as [err |]; [done |].
unfold bind, lift, ret in Hrun.
destruct (addDate doc _) as [d | |] eqn:Hadd; try done.
apply addDate_returns in Hadd as Hm. destruct Hm as [Hm _].
cbn [set_metadata set_url metadata title summary url] in Hm, Hadd.
destruct pm as [m |]; [| done].
eexists _, m. split; [apply parseMD_pure |]. simplify_eq. done.
Qed.

(** What a successful iteration leaves: for a page that is no post the
  posts are as before and the body is the rendered tree; for a post the
  posts have one more, and the body is the rendered tree with the date
  footer at its end. *)
Lemma renderPage_success srcpath destpath templateFile postre idx fname
  st (w w' : World) st' :
renderPage srcpath destpath templateFile postre idx fname st w =
  (w', Ret (inl st')) →
∃ pagemd tree,
  os_ReadFile fname (fs w) = inl pagemd ∧
  parseMD pagemd w = (w, Ret tree) ∧
  if MatchString postre fname then
    ∃ m k cs,
      tree = Container k cs ∧
      st_posts st' =
        st_posts st ++
        [mkPost (title (parsePostTree tree)) (summary (parsePostTree tree))
           (postURLOf destpath (outputPath srcpath destpath fname)) (Some m)] ∧
      Body (st_data st') =
        fst (markdown_Render
               (Container k
                  (cs ++ [Leaf HorizontalRule EmptyString;
                          Container Paragraph
                            [Leaf Text ("Posted: " +:+
                                        time_Format (DatePosted m) RFC1123)]]))
               (st_renderer st))
  else
    st_posts st' = st_posts st ∧
    Body (st_data st') = fst (markdown_Render tree (st_renderer st)).
Proof.
intros Hrun. unfold renderPage in Hrun.
unfold bind at 1 in Hrun. unfold print at 1 in Hrun.
unfold bind at 1 in Hrun. unfold read_fs at 1 in Hrun.
cbn [fs] in Hrun.
destruct (os_ReadFile fname (fs w)) as [pagemd | err]; [| done].
unfold bind at 1 in Hrun. rewrite parseMD_pure in Hrun.
unfold bind at 1 in Hrun.
eexists pagemd, _. split; [done |]. split; [apply parseMD_pure |].
destruct (MatchString postre fname).
- destruct (postPart _ _ _ _ _ _ _) as [w2 [[[doc' ps'] | e] | |]] eqn:Hpp;
    try done.
  apply postPart_success in Hpp as (tree & m & Htree & Hps & Hadd & _).
  rewrite parseMD_pure in Htree. injection Htree as <-.
  match type of Hadd with addDate ?d _ = _ => destruct d as [lk ll | k cs] eqn:Hd end;
    [by apply addDate_returns in Hadd as [_ ?] |].
  erewrite addDate_container in Hadd by reflexivity. injection Hadd as <-.
  exists m, k, cs. split; [done |].
  destruct (markdown_Render _ (st_renderer st)) as [body rd].
  unfold_M in Hrun.
  repeat (break_match_in Hrun; try discriminate Hrun);
    simplify_eq; done.
- unfold ret at 1 in Hrun.
  destruct (markdown_Render _ (st_renderer st)) as [body rd].
  unfold_M in Hrun.
  repeat (break_match_in Hrun; try discriminate Hrun);
    simplify_eq; done.
Qed.

(** The page of a post is rendered with its footer: after a successful
  iteration on a file that matches the post pattern, the body handed to
  the template is the rendering of the parsed tree with the rule and the
  [Posted: ] paragraph at its end, dated from the metadata of the post
  that was added last. *)
Theorem renderPage_post_body srcpath destpath templateFile postre idx fname
  st (w w' : World) st' :
renderPage srcpath destpath templateFile postre idx fname st w =
  (w', Ret (inl st')) →
MatchString postre fname = true →
∃ pagemd m k cs,
  os_ReadFile fname (fs w) = inl pagemd ∧
  parseMD pagemd w = (w, Ret (Container k cs)) ∧
  last (st_posts st') =
    Some (mkPost (title (parsePostTree (Container k cs)))
            (summary (parsePostTree (Container k cs)))
            (postURLOf destpath (outputPath srcpath destpath fname)) (Some m)) ∧
  Body (st_data st') =
    fst (markdown_Render
           (Container k
              (cs ++ [Leaf HorizontalRule EmptyString;
                      Container Paragraph
                        [Leaf Text ("Posted: " +:+
                                    time_Format (DatePosted m) RFC1123)]]))
           (st_renderer st)).
Proof.
intros Hrun Hm.
apply renderPage_success in Hrun as (pagemd & tree & Hr & Hp & Hrest).
rewrite Hm in Hrest. destruct Hrest as (m & k & cs & -> & Hps & Hb).
exists pagemd, m, k, cs. repeat split; try done.
rewrite Hps. apply last_snoc.
Qed.

(** The posts of a successful loop: one post for each file that matches the
  post pattern, in the order of the files, each with the URL of its page
  and with metadata that are not nil, after the posts there were. *)
Theorem pageLoop_posts srcpath destpath templateFile postre pagesmd idx st
  (w w' : World) st' :
pageLoop srcpath destpath templateFile postre idx pagesmd st w =
  (w', Ret (inl st')) →
∃ new,
  st_posts st' = st_posts st ++ new ∧
  map url new =
    map (λ f, postURLOf destpath (outputPath srcpath destpath f))
      (List.filter (MatchString postre) pagesmd) ∧
  Forall (λ p, metadata p ≠ None) new.
Proof.
revert idx st w. induction pagesmd as [| fname rest IH]; intros idx st w Hrun.
- exists []. injection Hrun as _ <-. by rewrite app_nil_r.
- cbn [pageLoop] in Hrun. unfold bind at 1 in Hrun.
  destruct (renderPage _ _ _ _ idx fname st w) as [w1 [[st1 | e] | |]] eqn:Hp;
    try discriminate Hrun.
  apply IH in Hrun as (new & Hnew & Hurl & Hmeta).
  apply renderPage_success in Hp as (pagemd & tree & _ & _ & Hp).
  cbn [List.filter]. destruct (MatchString postre fname).
  + destruct Hp as (m & k & cs & _ & Hps & _).
    eexists (_ :: new). rewrite Hnew, Hps, <- app_assoc. split; [done |].
    split; [cbn [map url]; by rewrite Hurl |]. by constructor.
  + destruct Hp as [Hps _]. exists new. by rewrite Hnew, Hps.
Qed.

Lemma pageLoop_app srcpath destpath templateFile postre pre rest idx st
  (w w1 : World) st1 :
pageLoop srcpath destpath templateFile postre idx pre st w =
  (w1, Ret (inl st1)) →
pageLoop srcpath destpath templateFile postre idx (pre ++ rest) st w =
pageLoop srcpath destpath templateFile postre (idx + length pre) rest st1 w1.
Proof.
revert idx st w. induction pre as [| f pre IH]; intros idx st w Hrun.
- injection Hrun as <- <-. by rewrite Nat.add_0_r.
- cbn [pageLoop app] in *. unfold bind at 1 in Hrun. unfold bind at 1.
  destruct (renderPage _ _ _ _ idx f st w) as [w2 [[st2 | e] | |]];
    try discriminate Hrun.
  rewrite (IH _ _ _ Hrun). f_equal. cbn [length]. lia.
Qed.

(** The loop stops at the first page that fails: the error of that page
  is the result, and the files after it are not touched, whatever they
  are. *)
Theorem pageLoop_stops_at_error srcpath destpath templateFile postre pre fname
  rest idx st (w w1 w2 : World) st1 err :
pageLoop srcpath destpath templateFile postre idx pre st w =
  (w1, Ret (inl st1)) →
renderPage srcpath destpath templateFile postre (idx + length pre) fname st1 w1 =
  (w2, Ret (inr err)) →
pageLoop srcpath destpath templateFile postre idx (pre ++ fname :: rest) st w =
  (w2, Ret (inr err)).
Proof.
intros Hpre Hf. rewrite (pageLoop_app _ _ _ _ _ _ _ _ _ _ _ Hpre).
cbn [pageLoop]. unfold bind at 1. by rewrite Hf.
Qed.

(** A metadata file that is there but cannot be decoded is an error of the
  page: the iteration returns it, wrapped, and has written nothing. *)
Theorem renderPage_metadata_error srcpath destpath templateFile postre idx
  fname st (w : World) pagemd fp e :
os_ReadFile fname (fs w) = inl pagemd →
MatchString postre fname = true →
match os_Stat (metadataPathOf fname) (fs w) with
| Some serr => IsNotExist serr
| None => false
end = false →
os_Open (metadataPathOf fname) (fs w) = inl fp →
json_Decode fp = inr e →
∃ w',
  renderPage srcpath destpath templateFile postre idx fname st w =
    (w', Ret (inr (wrap "rendering pages: "
                     (wrap ("reading post metadata " +:+
                            Quote (metadataPathOf fname) +:+ ": ") e)))) ∧
  fs w' = fs w ∧
  stdout w' = stdout w ++ ["   " +:+ itoa (Z.of_nat idx + 1) +:+ ": " +:+ fname].
Proof.
intros Hr Hm Hs Ho Hd. unfold renderPage.
unfold bind at 1. unfold print at 1.
unfold bind at 1. unfold read_fs at 1. cbn [fs]. rewrite Hr.
unfold bind at 1. rewrite parseMD_pure. unfold bind at 1. rewrite Hm.
unfold postPart. unfold bind at 1. rewrite parsePost_pure.
unfold bind at 1. unfold readPostMetadata. unfold bind at 1.
unfold read_fs at 1. cbn [fs]. rewrite Hs.
unfold bind at 1. unfold read_fs at 1. cbn [fs]. rewrite Ho, Hd.
destruct (File_Close fp); eexists; split; try reflexivity; done.
Qed.
End Pages.

(** ** Errors and the end of the run *)

Section RunFacts.
Context `{Platform}.

(** An error that one of the four stages of [main] returns ends the run at
  that stage: the message [error: ...] is added to standard error, no
  later stage runs, and the exit status is 1. *)
Theorem stage_error_exit_status (build commit : string) (w w' : World)
  (err : error) :
loadConfig w = (w', Ret (inr err)) ∨
(∃ conf w1,
   loadConfig w = (w1, Ret (inl conf)) ∧
   createDirs conf w1 = (w', Ret (Some err))) ∨
(∃ conf w1 w2,
   loadConfig w = (w1, Ret (inl conf)) ∧
   createDirs conf w1 = (w2, Ret None) ∧
   renderPages conf w2 = (w', Ret (Some err))) ∨
(∃ conf w1 w2 w3,
   loadConfig w = (w1, Ret (inl conf)) ∧
   createDirs conf w1 = (w2, Ret None) ∧
   renderPages conf w2 = (w3, Ret None) ∧
   copyResources conf w3 = (w', Ret (Some err))) →
run build commit false w =
(mkWorld (fs w') (stdout w') (stderr w' ++ ["error: " +:+ Error err]), 1).
Proof.
unfold run, main.
intros [Hl | [(conf & w1 & Hl & Hc) | [(conf & w1 & w2 & Hl & Hc & Hr) |
        (conf & w1 & w2 & w3 & Hl & Hc & Hr & Hcp)]]];
  unfold bind at 1; rewrite Hl; try done;
  unfold bind at 1; rewrite Hc; try done;
  unfold bind at 1; rewrite Hr; try done;
  unfold bind at 1; by rewrite Hcp.
Qed.

(** An error of a page (a source that cannot be read, metadata that cannot
  be decoded, a template or a write that fails) ends the whole run: it is
  reported on standard error with the prefix [error: ], the listing and
  the resources are not reached, and the exit status is 1. *)
Theorem page_error_ends_run (build commit : string) conf pagesmd postre
  (w w1 w2 w3 w4 : World) (err : error) :
loadConfig w = (w1, Ret (inl conf)) →
createDirs conf w1 = (w2, Ret None) →
collectMarkdownFiles (SourcePath conf) w2 = (w3, Ret (inl pagesmd)) →
regexp_Compile (PostPattern conf) = inl postre →
pageLoop (SourcePath conf) (DestinationPath conf) (PageTemplateFile conf)
  postre 0 pagesmd (loopInit conf pagesmd) (loopWorld pagesmd w3) =
  (w4, Ret (inr err)) →
run build commit false w =
(mkWorld (fs w4) (stdout w4) (stderr w4 ++ ["error: " +:+ Error err]), 1).
Proof.
intros Hl Hc Hcol Hre Hloop.
apply (main_dies_on_render_error _ _ _ _ _ _ _ _ Hl Hc).
by apply (renderPages_returns_page_error _ _ _ _ _ _ _ Hcol Hre).
Qed.

(** A post pattern that does not compile is an error before any page is
  read: [renderPages] returns it and the file system is as
  [collectMarkdownFiles] left it. *)
Theorem renderPages_bad_pattern conf pagesmd (w w1 : World) (err : error) :
collectMarkdownFiles (SourcePath conf) w = (w1, Ret (inl pagesmd)) →
regexp_Compile (PostPattern conf) = inr err →
∃ w',
  renderPages conf w = (w', Ret (Some (wrap "rendering pages: " err))) ∧
  fs w' = fs w1.
Proof.
intros Hc Hre. unfold renderPages. unfold bind at 1. rewrite Hc.
unfold bind at 1. unfold print at 1. rewrite Hre. by eexists.
Qed.

(** The listing step never panics and never exits; it leaves standard
  error as it is, and the only thing it can do to the file system is one
  write of [posts.html] under the destination root. *)
Theorem renderPostsPage_frame ps data r templateFile destpath (w : World) :
∃ w' res,
  renderPostsPage ps data r templateFile destpath w = (w', Ret res) ∧
  stderr w' = stderr w ∧
  (fs w' = fs w ∨
   ∃ htmlData,
     fs w' = fst (os_WriteFile (Join destpath "posts.html") htmlData 438 (fs w))).
Proof.
unfold renderPostsPage. unfold bind at 1. unfold print at 1.
destruct (0 <? Z.of_nat (length ps)); [| eexists _, _; by auto].
unfold bind at 1. rewrite parseMD_pure.
unfold bind at 1. unfold print at 1.
unfold bind at 1. unfold makeHTML, readTemplate. unfold_M. cbn [fs].
destruct (os_ReadFile templateFile (fs w)) as [thtml | e];
  [| eexists _, _; by auto].
destruct (template_Parse "webpage" thtml) as [t | e];
  [| eexists _, _; by auto].
destruct (template_Execute t _) as [htmlData | e];
  [| eexists _, _; by auto].
cbn [fs stdout stderr].
destruct (os_WriteFile _ htmlData 438 (fs w)) as [f' [e |]] eqn:Hw;
  eexists _, _; (split; [reflexivity |]); (split; [done |]);
  right; exists htmlData; by rewrite Hw.
Qed.

(** The callback of the file search returns the error it is given, keeps
  the paths found so far, adds the path only when its extension is [.md],
  and touches nothing; so the paths found all have the extension [.md]
  when those found before have. *)
Theorem mdfinder_keeps_markdown (path : string) (info : FileInfo)
  (err : option error) (pagesmd : list string) (w : World) :
Forall (λ p, Ext p = ".md") pagesmd →
∃ found,
  mdfinder path info err pagesmd w = (w, Ret (found, err)) ∧
  (found = pagesmd ∨
   (found = pagesmd ++ [path] ∧ Ext path = ".md" ∧ err = None)) ∧
  Forall (λ p, Ext p = ".md") found.
Proof.
intros Hall. unfold mdfinder. destruct err as [e |].
- exists pagesmd. by auto.
- destruct (String.eqb (Ext path) ".md") eqn:E.
  + apply String.eqb_eq in E. exists (pagesmd ++ [path]).
    split; [done |]. split; [by auto |].
    apply Forall_app. by split; [| constructor].
  + exists pagesmd. by auto.
Qed.

(** A regular file among the resources is copied to the destination root
  joined with the whole path of the file, the resource directory
  included: what is read from it is written there, and nothing else is
  written. *)
Theorem walker_copies_file (dstroot srcloc data : string) (info : FileInfo)
  (w : World) :
IsRegular info = true →
os_ReadFile srcloc (fs w) = inl data →
∃ w' res,
  walker dstroot srcloc info None tt w = (w', Ret (tt, res)) ∧
  fs w' = fst (os_WriteFile (Join dstroot srcloc) data 438 (fs w)) ∧
  (res = None ↔ snd (os_WriteFile (Join dstroot srcloc) data 438 (fs w)) = None).
Proof.
intros Hreg Hread. unfold walker. rewrite Hreg.
unfold bind at 1. unfold print at 1. unfold bind at 1.
unfold copyFile. unfold_M. cbn [fs]. rewrite Hread. cbn [fs stdout stderr].
destruct (os_WriteFile (Join dstroot srcloc) data 438 (fs w)) as [f' [e |]];
  eexists _, _; (split; [reflexivity |]); by split.
Qed.
End RunFacts.

(** A post added to the collection adds its entry at the end of the
    listing, numbered with the count of the posts before it. *)
Theorem listingBody_snoc (ps : list post) (p : post) :
  listingBody (ps ++ [p]) =
  listingBody ps +:+ listingEntry (Z.of_nat (length ps)) p.
Proof.
  unfold listingBody. rewrite !listingLoop_entries.
  change (EmptyString +:+ ?s) with s.
  rewrite imap_app, concat_literals_app. cbn [imap fold_right].
  by rewrite append_empty_r, Nat.add_0_r, Z.add_0_l.
Qed.

(** ** The properties on the small platform *)

#[local] Existing Instance Sim.platform.

Lemma mdfinder_keeps_markdown_witness :
  ∃ found,
    mdfinder (H := Sim.platform) "pages-md/about.md" (mkFileInfo true false) None
      ["pages-md/20230101-hello.md"] Sim.world_mixed =
      (Sim.world_mixed, Ret (found, None)) ∧
    (found = ["pages-md/20230101-hello.md"] ∨
     (found = ["pages-md/20230101-hello.md"] ++ ["pages-md/about.md"] ∧
      Ext "pages-md/about.md" = ".md" ∧ None = (None : option error))) ∧
    Forall (λ p, Ext p = ".md") found.
Proof.
  apply (mdfinder_keeps_markdown (H := Sim.platform) "pages-md/about.md"
           (mkFileInfo true false) None ["pages-md/20230101-hello.md"]
           Sim.world_mixed).
  repeat constructor.
Defined.

Lemma pageLoop_posts_witness :
  let files := ["pages-md/20230101-hello.md"; "pages-md/about.md"] in
  let st' :=
    mkLoopState (H := Sim.platform) (mkTemplateData "Site" "About" ".") tt
      [mkPost EmptyString "Hello" "20230101-hello.html"
         (Some (mkPostMetadata (mkTime 0 0 Sim.utc) []))]
      ["html/20230101-hello.html"; "html/about.html"] in
  ∃ new,
    st_posts st' = st_posts (loopInit Sim.conf files) ++ new ∧
    map url new =
      map (λ f, postURLOf "html" (outputPath "pages-md" "html" f))
        (List.filter (MatchString (Platform := Sim.platform) "[0-9]{8}-.*") files) ∧
    Forall (λ p, metadata p ≠ None) new.
Proof.
  intros files st'.
  apply (pageLoop_posts (H := Sim.platform) "pages-md" "html"
           "templates/template.html" "[0-9]{8}-.*" files 0
           (loopInit Sim.conf files) (loopWorld files Sim.world_mixed)
           (fst (pageLoop (H := Sim.platform) "pages-md" "html"
                   "templates/template.html" "[0-9]{8}-.*" 0 files
                   (loopInit Sim.conf files) (loopWorld files Sim.world_mixed)))
           st').
  reflexivity.
Defined.

Lemma pageLoop_stops_at_error_witness :
  let pre := ["pages-md/20230101-hello.md"; "pages-md/about.md"] in
  snd (pageLoop (H := Sim.platform) "pages-md" "html" "templates/template.html"
         "[0-9]{8}-.*" 0 (pre ++ "pages-md/broken.md" :: ["pages-md/never.md"])
         (loopInit Sim.conf pre) Sim.world_mixed) =
  Ret (inr (wrap ("rendering pages: reading file " +:+
                  @Quote Sim.platform "pages-md/broken.md" +:+ ": ")
              (Sim.is_a_directory "read" "pages-md/broken.md"))).
Proof.
  intros pre.
  rewrite (pageLoop_stops_at_error (H := Sim.platform) "pages-md" "html"
             "templates/template.html" "[0-9]{8}-.*" pre "pages-md/broken.md"
             ["pages-md/never.md"] 0 (loopInit Sim.conf pre) Sim.world_mixed
             (fst (pageLoop (H := Sim.platform) "pages-md" "html"
                     "templates/template.html" "[0-9]{8}-.*" 0 pre
                     (loopInit Sim.conf pre) Sim.world_mixed))
             (fst (renderPage (H := Sim.platform) "pages-md" "html"
                     "templates/template.html" "[0-9]{8}-.*" 2 "pages-md/broken.md"
                     (mkLoopState (H := Sim.platform)
                        (mkTemplateData "Site" "About" ".") tt
                        [mkPost EmptyString "Hello" "20230101-hello.html"
                           (Some (mkPostMetadata (mkTime 0 0 Sim.utc) []))]
                        ["html/20230101-hello.html"; "html/about.html"])
                     (fst (pageLoop (H := Sim.platform) "pages-md" "html"
                             "templates/template.html" "[0-9]{8}-.*" 0 pre
                             (loopInit Sim.conf pre) Sim.world_mixed))))
             (mkLoopState (H := Sim.platform)
                (mkTemplateData "Site" "About" ".") tt
                [mkPost EmptyString "Hello" "20230101-hello.html"
                   (Some (mkPostMetadata (mkTime 0 0 Sim.utc) []))]
                ["html/20230101-hello.html"; "html/about.html"])
             (wrap ("rendering pages: reading file " +:+
                    @Quote Sim.platform "pages-md/broken.md" +:+ ": ")
                (Sim.is_a_directory "read" "pages-md/broken.md")));
    reflexivity.
Defined.

Lemma renderPage_metadata_error_witness :
  ∃ w',
    renderPage (H := Sim.platform) "pages-md" "html" "templates/template.html"
      "[0-9]{8}-.*" 0 "pages-md/20230101-hello.md"
      (loopInit Sim.conf ["pages-md/20230101-hello.md"]) Sim.world_bad_metadata =
      (w', Ret (inr (wrap "rendering pages: "
                       (wrap ("reading post metadata " +:+
                              @Quote Sim.platform
                                (metadataPathOf "pages-md/20230101-hello.md") +:+
                              ": ")
                          (mkError "EOF" false))))) ∧
    fs w' = fs Sim.world_bad_metadata ∧
    stdout w' =
      stdout Sim.world_bad_metadata ++
      ["   " +:+ itoa (Z.of_nat 0 + 1) +:+ ": " +:+ "pages-md/20230101-hello.md"].
Proof.
  apply (renderPage_metadata_error (H := Sim.platform) "pages-md" "html"
           "templates/template.html" "[0-9]{8}-.*" 0 "pages-md/20230101-hello.md"
           (loopInit Sim.conf ["pages-md/20230101-hello.md"])
           Sim.world_bad_metadata "Hello" EmptyString (mkError "EOF" false));
    reflexivity.
Defined.

Lemma stage_error_exit_status_witness :
  run (H := Sim.platform) EmptyString EmptyString false (Sim.files []) =
  (mkWorld (fs (Sim.files [])) (stdout (Sim.files []))
     (stderr (Sim.files []) ++
      ["error: " +:+
       Error (wrap "loading config: "
                (mkError ("Config File " +:+ Sim.dq +:+ "config" +:+ Sim.dq +:+
                          " Not Found") false))]), 1).
Proof.
  apply (stage_error_exit_status (H := Sim.platform) EmptyString EmptyString
           (Sim.files []) (Sim.files [])).
  left. reflexivity.
Defined.

Lemma page_error_ends_run_witness :
  snd (run (H := Sim.platform) EmptyString EmptyString false Sim.world_mixed) = 1.
Proof.
  set (files := ["pages-md/20230101-hello.md"; "pages-md/about.md";
                 "pages-md/broken.md"]).
  set (w2 := fst (createDirs (H := Sim.platform) Sim.conf Sim.world_mixed)).
  rewrite (page_error_ends_run (H := Sim.platform) EmptyString EmptyString
             Sim.conf files "[0-9]{8}-.*" Sim.world_mixed Sim.world_mixed w2 w2
             (fst (pageLoop (H := Sim.platform) "pages-md" "html"
                     "templates/template.html" "[0-9]{8}-.*" 0 files
                     (loopInit Sim.conf files) (loopWorld files w2)))
             (wrap ("rendering pages: reading file " +:+
                    @Quote Sim.platform "pages-md/broken.md" +:+ ": ")
                (Sim.is_a_directory "read" "pages-md/broken.md")));
    reflexivity.
Defined.

Lemma renderPages_bad_pattern_witness :
  ∃ w',
    renderPages (H := Sim.platform)
      (mkSiteConfig "Site" "pages-md" "html" "templates/template.html" "res" "(")
      Sim.world_page =
      (w', Ret (Some (wrap "rendering pages: "
                        (mkError ("error parsing regexp: " +:+ "(") false)))) ∧
    fs w' = fs Sim.world_page.
Proof.
  apply (renderPages_bad_pattern (H := Sim.platform)
           (mkSiteConfig "Site" "pages-md" "html" "templates/template.html" "res" "(")
           ["pages-md/about.md"] Sim.world_page Sim.world_page);
    reflexivity.
Defined.

Lemma walker_copies_file_witness :
  ∃ w' res,
    walker "html" "res/css/style.css" (mkFileInfo true false) None tt
      Sim.world_resources = (w', Ret (tt, res)) ∧
    fs w' = fst (os_WriteFile (Join "html" "res/css/style.css") "body{}" 438
                   (fs Sim.world_resources)) ∧
    (res = None ↔
     snd (os_WriteFile (Join "html" "res/css/style.css") "body{}" 438
            (fs Sim.world_resources)) = None).
Proof.
  apply (walker_copies_file "html" "res/css/style.css" "body{}"
           (mkFileInfo true false) Sim.world_resources); reflexivity.
Defined.

Lemma renderPage_post_body_witness :
  let st := loopInit Sim.conf ["pages-md/20230101-hello.md"] in
  let st' :=
    mkLoopState (mkTemplateData "Site" "HelloPosted: 0" ".") tt
      [mkPost EmptyString "Hello" "20230101-hello.html"
         (Some (mkPostMetadata (mkTime 0 0 Sim.utc) []))]
      ["html/20230101-hello.html"] in
  ∃ pagemd m k cs,
    os_ReadFile "pages-md/20230101-hello.md" (fs Sim.world_post) = inl pagemd ∧
    parseMD pagemd Sim.world_post = (Sim.world_post, Ret (Container k cs)) ∧
    last (st_posts st') =
      Some (mkPost (title (parsePostTree (Container k cs)))
              (summary (parsePostTree (Container k cs)))
              (postURLOf "html"
                 (outputPath "pages-md" "html" "pages-md/20230101-hello.md"))
              (Some m)) ∧
    Body (st_data st') =
      fst (markdown_Render
             (Container k
                (cs ++ [Leaf HorizontalRule EmptyString;
                        Container Paragraph
                          [Leaf Text ("Posted: " +:+
                                      time_Format (DatePosted m) RFC1123)]]))
             (st_renderer st)).
Proof.
  intros st st'.
  apply (renderPage_post_body (H := Sim.platform) "pages-md" "html"
           "templates/template.html"
           "[0-9]{8}-.*" 0 "pages-md/20230101-hello.md" st Sim.world_post
           (fst (renderPage (H := Sim.platform) "pages-md" "html"
                   "templates/template.html"
                   "[0-9]{8}-.*" 0 "pages-md/20230101-hello.md" st Sim.world_post))
           st'); reflexivity.
Defined.
